(** * SolanaConnectionService: a shallow embedding of [src/SolanaService.ts]

    The service is glue code around third-party libraries (@solana/web3.js,
    @solana/spl-token, @solana/spl-token-metadata, bs58) and two Node
    built-ins ([fs], [JSON]).  The embedding keeps the service's own code as
    it is written -- one monadic definition per method, one bind per
    statement that can throw or that touches the world -- and treats the
    libraries as follows:

    - the calls that reach the ledger are answered by an arbitrary ledger and
      recorded in a trace, see [Sdk] and [await];
    - the Ed25519 derivation, the entropy source, the metadata packer and
      the account layout are fields of [Sdk] too;
    - bs58, [JSON.stringify] and [JSON.parse] on the texts the wallet file
      can hold, the [PublicKey] constructor and the checks of
      [Keypair.fromSecretKey] are executable definitions. *)

From Stdlib Require Import NArith ZArith Lia List Ascii String.
From Stdlib.Strings Require Import Byte.
From stdpp Require Import base option list gmap strings.
Import ListNotations.

Local Open Scope N_scope.

(** * Positional numerals

    bs58 and the decimal numerals of JSON are both positional systems; the
    two conversions are shared.  Digits are most significant first. *)

Module Radix.

Fixpoint of_digits (b acc : N) (ds : list N) : N :=
  match ds with
  | [] => acc
  | d :: ds' => of_digits b (acc * b + d) ds'
  end.

Fixpoint to_digits_fuel (fuel : nat) (b n : N) (acc : list N) : list N :=
  match fuel with
  | O => acc
  | S fuel' =>
      if n =? 0 then acc
      else to_digits_fuel fuel' b (n / b) (n mod b :: acc)
  end.

(** One round per bit of [n] is enough for any base above one. *)
Definition to_digits (b n : N) : list N :=
  to_digits_fuel (S (N.to_nat (N.log2 n))) b n [].

Definition head_nonzero (ds : list N) : Prop :=
  match ds with
  | [] => True
  | d :: _ => d <> 0
  end.

Fixpoint strip_zeros (ds : list N) : list N :=
  match ds with
  | 0 :: ds' => strip_zeros ds'
  | _ => ds
  end.

Fixpoint count_zeros (ds : list N) : nat :=
  match ds with
  | 0 :: ds' => S (count_zeros ds')
  | _ => O
  end.

Section Base.
Variable b : N.
Hypothesis b_ge_2 : 2 <= b.

Lemma of_digits_app acc ds1 ds2 :
  of_digits b acc (ds1 ++ ds2) = of_digits b (of_digits b acc ds1) ds2.
Proof. revert acc; induction ds1 as [|d ds1 IH]; intros acc; simpl; auto. Qed.

Lemma of_digits_snoc ds d :
  of_digits b 0 (ds ++ [d]) = of_digits b 0 ds * b + d.
Proof. now rewrite of_digits_app. Qed.

Lemma to_digits_fuel_acc fuel n acc :
  to_digits_fuel fuel b n acc = to_digits_fuel fuel b n [] ++ acc.
Proof.
  revert n acc; induction fuel as [|fuel IH]; intros n acc; simpl; auto.
  destruct (n =? 0); auto.
  rewrite (IH _ (n mod b :: acc)), (IH _ [n mod b]).
  now rewrite <- app_assoc.
Qed.

Lemma div_lt_pow2 n k : n < 2 ^ N.succ k -> n / b < 2 ^ k.
Proof.
  intros Hn. rewrite N.pow_succ_r' in Hn.
  apply N.Div0.div_lt_upper_bound.
  apply N.lt_le_trans with (2 * 2 ^ k); auto.
  apply N.mul_le_mono_r; auto.
Qed.

Lemma to_digits_fuel_S fuel n acc :
  to_digits_fuel (S fuel) b n acc =
  if n =? 0 then acc else to_digits_fuel fuel b (n / b) (n mod b :: acc).
Proof. reflexivity. Qed.

(** Past the number of bits of [n] more fuel changes nothing. *)
Lemma to_digits_fuel_succ fuel n :
  n < 2 ^ N.of_nat fuel ->
  to_digits_fuel (S fuel) b n [] = to_digits_fuel fuel b n [].
Proof.
  revert n; induction fuel as [|fuel IH]; intros n Hn.
  - simpl in Hn. assert (n = 0) by lia. now subst.
  - rewrite (to_digits_fuel_S (S fuel) n), (to_digits_fuel_S fuel n).
    destruct (N.eqb_spec n 0) as [->|Hnz]; auto.
    rewrite (to_digits_fuel_acc (S fuel) (n / b)), (to_digits_fuel_acc fuel (n / b)).
    f_equal.
    apply IH. rewrite Nat2N.inj_succ in Hn. now apply div_lt_pow2.
Qed.

Lemma to_digits_fuel_stable fuel fuel' n :
  n < 2 ^ N.of_nat fuel -> n < 2 ^ N.of_nat fuel' ->
  to_digits_fuel fuel b n [] = to_digits_fuel fuel' b n [].
Proof.
  assert (Hup : forall k f m, m < 2 ^ N.of_nat f ->
            to_digits_fuel (k + f) b m [] = to_digits_fuel f b m []).
  { induction k as [|k IHk]; intros f m Hm; auto.
    change (S k + f)%nat with (S (k + f)).
    rewrite to_digits_fuel_succ; auto.
    apply N.lt_le_trans with (2 ^ N.of_nat f); auto.
    apply N.pow_le_mono_r; lia. }
  intros H1 H2. destruct (Nat.le_ge_cases fuel fuel') as [Hle|Hle].
  - replace fuel' with ((fuel' - fuel) + fuel)%nat by lia. now rewrite Hup.
  - replace fuel with ((fuel - fuel') + fuel')%nat by lia. now rewrite Hup.
Qed.

Lemma lt_pow2_log2 n : n < 2 ^ N.of_nat (S (N.to_nat (N.log2 n))).
Proof.
  rewrite Nat2N.inj_succ, N2Nat.id.
  destruct (N.eq_dec n 0) as [->|Hnz].
  - simpl. lia.
  - apply N.log2_spec. lia.
Qed.

(** The defining equation of [to_digits], free of fuel. *)
Lemma to_digits_eq n :
  to_digits b n = if n =? 0 then [] else to_digits b (n / b) ++ [n mod b].
Proof.
  unfold to_digits at 1. rewrite to_digits_fuel_S.
  destruct (N.eqb_spec n 0) as [->|Hnz]; auto.
  rewrite to_digits_fuel_acc. f_equal.
  apply to_digits_fuel_stable; [|apply lt_pow2_log2].
  rewrite N2Nat.id. apply div_lt_pow2. apply N.log2_spec. lia.
Qed.

Lemma to_digits_0 : to_digits b 0 = [].
Proof. reflexivity. Qed.

Lemma of_to_digits n : of_digits b 0 (to_digits b n) = n.
Proof.
  induction n as [n IH] using (well_founded_induction N.lt_wf_0).
  rewrite to_digits_eq. destruct (N.eqb_spec n 0) as [->|Hnz]; auto.
  rewrite of_digits_snoc, IH.
  - rewrite N.mul_comm. symmetry. apply N.Div0.div_mod.
  - apply N.div_lt; lia.
Qed.

Lemma to_digits_lt n : Forall (fun d => d < b) (to_digits b n).
Proof.
  induction n as [n IH] using (well_founded_induction N.lt_wf_0).
  rewrite to_digits_eq. destruct (N.eqb_spec n 0) as [->|Hnz]; [constructor|].
  apply Forall_app; split.
  - apply IH. apply N.div_lt; lia.
  - repeat constructor. apply N.mod_lt. lia.
Qed.

Lemma to_digits_head_nonzero n : head_nonzero (to_digits b n).
Proof.
  induction n as [n IH] using (well_founded_induction N.lt_wf_0).
  rewrite to_digits_eq. destruct (N.eqb_spec n 0) as [->|Hnz]; [exact I|].
  assert (Hlt : n / b < n) by (apply N.div_lt; lia).
  specialize (IH _ Hlt). pose proof (of_to_digits (n / b)) as Hq.
  destruct (to_digits b (n / b)) as [|d0 l]; simpl in *; auto.
  rewrite (N.div_mod n b) in Hnz by lia. rewrite <- Hq in Hnz. lia.
Qed.

Lemma of_digits_pos ds :
  ds <> [] -> head_nonzero ds -> 0 < of_digits b 0 ds.
Proof.
  induction ds as [|d ds IH] using rev_ind; [congruence|].
  intros _ Hh. rewrite of_digits_snoc.
  destruct ds as [|d0 ds0]; simpl in *; [lia|].
  assert (0 < of_digits b (0 * b + d0) ds0) by (apply IH; auto; congruence).
  nia.
Qed.

(** Canonical numerals (no leading zero, digits below the base) are the
    images of [to_digits]. *)
Lemma to_of_digits ds :
  head_nonzero ds -> Forall (fun d => d < b) ds ->
  to_digits b (of_digits b 0 ds) = ds.
Proof.
  induction ds as [|d ds IH] using rev_ind; intros Hh Hlt; auto.
  apply Forall_app in Hlt as [Hlt Hd]. inversion Hd as [|? ? Hdb _]; subst.
  rewrite of_digits_snoc, to_digits_eq.
  destruct ds as [|d0 ds0].
  - cbn [of_digits app head_nonzero] in *. rewrite N.mul_0_l, N.add_0_l.
    destruct (N.eqb_spec d 0); [contradiction|].
    rewrite N.div_small, N.mod_small by auto. reflexivity.
  - assert (Hpos : 0 < of_digits b 0 (d0 :: ds0))
      by (apply of_digits_pos; auto; congruence).
    destruct (N.eqb_spec (of_digits b 0 (d0 :: ds0) * b + d) 0); [nia|].
    rewrite N.div_add_l, N.div_small, N.add_0_r by lia.
    rewrite N.add_comm, N.Div0.mod_add, N.mod_small by auto.
    rewrite IH; auto.
Qed.

Lemma of_digits_strip ds : of_digits b 0 (strip_zeros ds) = of_digits b 0 ds.
Proof.
  induction ds as [|d ds IH]; auto.
  destruct d; simpl; auto.
Qed.

End Base.

Lemma strip_zeros_head ds : head_nonzero (strip_zeros ds).
Proof.
  induction ds as [|d ds IH]; simpl; auto.
  destruct d; simpl; auto.
Qed.

Lemma count_strip_zeros ds :
  repeat 0 (count_zeros ds) ++ strip_zeros ds = ds.
Proof.
  induction ds as [|d ds IH]; auto.
  destruct d; simpl; auto. now rewrite IH.
Qed.

End Radix.

(** * Bytes *)

Abbreviation bytes := (list byte).

(** Storing a number into a [Uint8Array] keeps it modulo 256. *)
Definition byte_of_N (n : N) : byte :=
  match Byte.of_N (n mod 256) with
  | Some b => b
  | None => x00
  end.

Definition ToUint8 (z : Z) : byte := byte_of_N (Z.to_N (z mod 256)).

Lemma byte_of_to_N (b : byte) : byte_of_N (Byte.to_N b) = b.
Proof.
  unfold byte_of_N. pose proof (Byte.to_N_bounded b).
  rewrite N.mod_small by lia. now rewrite Byte.of_to_N.
Qed.

Lemma ToUint8_to_N (b : byte) : ToUint8 (Z.of_N (Byte.to_N b)) = b.
Proof.
  unfold ToUint8. pose proof (Byte.to_N_bounded b).
  rewrite Z.mod_small by lia. rewrite N2Z.id. apply byte_of_to_N.
Qed.

Lemma map_byte_of_to_N (bs : bytes) : map byte_of_N (map Byte.to_N bs) = bs.
Proof.
  induction bs as [|b bs IH]; simpl; auto. now rewrite byte_of_to_N, IH.
Qed.

(** * bs58

    [base58.encode] and [base58.decode] of the bs58 package (base-x over the
    Bitcoin alphabet): every leading zero byte is one leading ['1'], the rest
    is the big-endian number in base 58. *)

Module Base58.
Import Radix.

Definition ALPHABET : string :=
  "123456789ABCDEFGHJKLMNPQRSTUVWXYZabcdefghijkmnopqrstuvwxyz".

Definition LEADER : ascii := "1"%char.

Definition char_of_digit (d : N) : ascii :=
  nth (N.to_nat d) (list_ascii_of_string ALPHABET) LEADER.

Fixpoint index_from (i : N) (c : ascii) (l : list ascii) : option N :=
  match l with
  | [] => None
  | x :: l' => if Ascii.eqb c x then Some i else index_from (N.succ i) c l'
  end.

Definition digit_of_char (c : ascii) : option N :=
  index_from 0 c (list_ascii_of_string ALPHABET).

Definition encode (source : bytes) : string :=
  let digits256 := map Byte.to_N source in
  let zeroes := count_zeros digits256 in
  let b58 := to_digits 58 (of_digits 256 0 digits256) in
  string_of_list_ascii (repeat LEADER zeroes ++ map char_of_digit b58).

(** [None] is base-x's [decodeUnsafe] returning [undefined]. *)
Definition decodeUnsafe (source : string) : option bytes :=
  match mapM digit_of_char (list_ascii_of_string source) with
  | None => None
  | Some b58 =>
      let zeroes := count_zeros b58 in
      let b256 := to_digits 256 (of_digits 58 0 b58) in
      Some (repeat x00 zeroes ++ map byte_of_N b256)
  end.

Lemma digit_of_char_of_digit d : d < 58 -> digit_of_char (char_of_digit d) = Some d.
Proof.
  intros Hd.
  assert (Hall : forallb (fun d => match digit_of_char (char_of_digit d) with
                                   | Some d' => d' =? d | None => false end)
                   (map N.of_nat (seq 0 58)) = true) by (vm_compute; reflexivity).
  rewrite forallb_forall in Hall.
  specialize (Hall d). rewrite in_map_iff in Hall.
  destruct (digit_of_char (char_of_digit d)) as [d'|].
  - f_equal. apply N.eqb_eq. apply Hall. exists (N.to_nat d). split; [lia|].
    apply in_seq. lia.
  - discriminate Hall. exists (N.to_nat d). split; [lia|]. apply in_seq. lia.
Qed.

Lemma count_zeros_repeat k ds :
  head_nonzero ds -> count_zeros (repeat 0 k ++ ds) = k.
Proof.
  intros Hh. induction k as [|k IH]; simpl; auto.
  destruct ds as [|[|p] ds]; simpl in *; auto. congruence.
Qed.

Lemma of_digits_repeat_0 b k ds :
  of_digits b 0 (repeat 0 k ++ ds) = of_digits b 0 ds.
Proof.
  induction k as [|k IH]; simpl; auto.
Qed.

(** Decoding inverts encoding, leading zero bytes included. *)
Lemma decode_encode (source : bytes) : decodeUnsafe (encode source) = Some source.
Proof.
  unfold decodeUnsafe, encode.
  rewrite list_ascii_of_string_of_list_ascii.
  set (d256 := map Byte.to_N source).
  set (v := of_digits 256 0 d256).
  assert (Hmap : mapM digit_of_char
            (repeat LEADER (count_zeros d256) ++ map char_of_digit (to_digits 58 v))
          = Some (repeat 0 (count_zeros d256) ++ to_digits 58 v)).
  { change LEADER with (char_of_digit 0).
    rewrite <- map_repeat, <- map_app. apply mapM_fmap_Forall_Some.
    apply Forall_app; split.
    - apply List.Forall_forall. intros x Hx. apply repeat_spec in Hx. subst.
      now apply digit_of_char_of_digit.
    - pose proof (to_digits_lt 58 ltac:(lia) v) as Hlt. revert Hlt.
      apply List.Forall_impl. intros d Hd. now apply digit_of_char_of_digit. }
  rewrite Hmap.
  rewrite count_zeros_repeat by (apply to_digits_head_nonzero; lia).
  rewrite of_digits_repeat_0, of_to_digits by lia.
  unfold v. rewrite <- (of_digits_strip 256 d256).
  rewrite to_of_digits.
  - change x00 with (byte_of_N 0).
    rewrite <- map_repeat, <- map_app, count_strip_zeros. f_equal. apply map_byte_of_to_N.
  - lia.
  - apply strip_zeros_head.
  - assert (Hall : Forall (fun d => d < 256) d256).
    { unfold d256. apply List.Forall_forall. intros x Hx. apply in_map_iff in Hx.
      destruct Hx as [b0 [<- _]]. pose proof (Byte.to_N_bounded b0). lia. }
    clear -Hall. induction d256 as [|d ds IH]; simpl; auto.
    inversion Hall; subst. destruct d; auto.
Qed.

(** The usual test vectors. *)
Example encode_hello_world :
  encode (map (fun c => byte_of_N (N_of_ascii c)) (list_ascii_of_string "Hello World!"))
  = "2NEpo7TZRRrLZSi2U"%string.
Proof. vm_compute. reflexivity. Qed.

Example encode_leading_zeros : encode [x00; x00; x01] = "112"%string.
Proof. vm_compute. reflexivity. Qed.

Example decode_rejects_zero : decodeUnsafe "0" = None.
Proof. vm_compute. reflexivity. Qed.

End Base58.

(** * JSON

    [JSON.stringify] and [JSON.parse] on the texts the wallet file can hold.
    Numbers are the integer literals (a literal with a fraction or an
    exponent is outside the fragment and is rejected), strings are byte
    strings and [\u] escapes are not read. *)

Module JSON.
Import Radix.

#[local] Unset Elimination Schemes.
Inductive value : Type :=
| Null
| Bool (b : bool)
| Num (n : Z)
| Str (s : string)
| Arr (elements : list value)
| Obj (members : list (string * value)).
#[local] Set Elimination Schemes.

Definition DQUOTE : ascii := "034"%char.
Definition BACKSLASH : ascii := "092"%char.

Definition digit_char (d : N) : ascii := ascii_of_N (48 + d).

Definition is_digit (c : ascii) : bool :=
  (48 <=? N_of_ascii c) && (N_of_ascii c <=? 57).

Definition digit_value (c : ascii) : N := N_of_ascii c - 48.

Definition chars_of_N (n : N) : list ascii :=
  if n =? 0 then ["0"%char] else map digit_char (to_digits 10 n).

Definition chars_of_Z (z : Z) : list ascii :=
  if (z <? 0)%Z then "-"%char :: chars_of_N (Z.to_N (- z)) else chars_of_N (Z.to_N z).

Definition hex_char (d : N) : ascii :=
  if d <? 10 then ascii_of_N (48 + d) else ascii_of_N (87 + d).

(** [QuoteJSONString]: the two-character escapes, [\u00xx] for the other
    control characters. *)
Definition escape_char (c : ascii) : list ascii :=
  let n := N_of_ascii c in
  if Ascii.eqb c DQUOTE then [BACKSLASH; DQUOTE]
  else if Ascii.eqb c BACKSLASH then [BACKSLASH; BACKSLASH]
  else if n =? 8 then [BACKSLASH; "b"%char]
  else if n =? 9 then [BACKSLASH; "t"%char]
  else if n =? 10 then [BACKSLASH; "n"%char]
  else if n =? 12 then [BACKSLASH; "f"%char]
  else if n =? 13 then [BACKSLASH; "r"%char]
  else if n <? 32 then
    [BACKSLASH; "u"%char; "0"%char; "0"%char; hex_char (n / 16); hex_char (n mod 16)]
  else [c].

Definition quote (s : string) : list ascii :=
  DQUOTE :: flat_map escape_char (list_ascii_of_string s) ++ [DQUOTE].

Fixpoint join (sep : ascii) (parts : list (list ascii)) : list ascii :=
  match parts with
  | [] => []
  | [p] => p
  | p :: parts' => p ++ sep :: join sep parts'
  end.

Fixpoint stringify_chars (v : value) : list ascii :=
  match v with
  | Null => list_ascii_of_string "null"
  | Bool true => list_ascii_of_string "true"
  | Bool false => list_ascii_of_string "false"
  | Num n => chars_of_Z n
  | Str s => quote s
  | Arr elements =>
      "["%char :: join ","%char (map stringify_chars elements) ++ ["]"%char]
  | Obj members =>
      "{"%char ::
        join ","%char
          (map (fun kv => quote (fst kv) ++ ":"%char :: stringify_chars (snd kv)) members)
        ++ ["}"%char]
  end.

Definition stringify (v : value) : string :=
  string_of_list_ascii (stringify_chars v).

(** ** Reading *)

Definition is_ws (c : ascii) : bool :=
  let n := N_of_ascii c in (n =? 32) || (n =? 9) || (n =? 10) || (n =? 13).

Fixpoint skip_ws (s : list ascii) : list ascii :=
  match s with
  | c :: s' => if is_ws c then skip_ws s' else s
  | [] => []
  end.

Fixpoint strip_prefix (p s : list ascii) : option (list ascii) :=
  match p, s with
  | [], _ => Some s
  | x :: p', y :: s' => if Ascii.eqb x y then strip_prefix p' s' else None
  | _ :: _, [] => None
  end.

Fixpoint parse_digits (acc : N) (s : list ascii) : N * list ascii :=
  match s with
  | c :: s' => if is_digit c then parse_digits (acc * 10 + digit_value c) s' else (acc, s)
  | [] => (acc, [])
  end.

Definition starts_fraction (s : list ascii) : bool :=
  match s with
  | c :: _ => Ascii.eqb c "."%char || Ascii.eqb c "e"%char || Ascii.eqb c "E"%char
  | [] => false
  end.

Definition starts_digit (s : list ascii) : bool :=
  match s with
  | c :: _ => is_digit c
  | [] => false
  end.

(** An integer literal: no leading zero, no fraction, no exponent. *)
Definition parse_nat (s : list ascii) : option (N * list ascii) :=
  match s with
  | c :: s' =>
      if Ascii.eqb c "0"%char then
        if starts_digit s' || starts_fraction s' then None else Some (0, s')
      else if is_digit c then
        let '(n, rest) := parse_digits (digit_value c) s' in
        if starts_fraction rest then None else Some (n, rest)
      else None
  | [] => None
  end.

Definition parse_number (s : list ascii) : option (Z * list ascii) :=
  match s with
  | c :: s' =>
      if Ascii.eqb c "-"%char then
        match parse_nat s' with
        | Some (n, rest) => Some ((- Z.of_N n)%Z, rest)
        | None => None
        end
      else
        match parse_nat s with
        | Some (n, rest) => Some (Z.of_N n, rest)
        | None => None
        end
  | [] => None
  end.

Definition unescape (c : ascii) : option ascii :=
  if Ascii.eqb c DQUOTE then Some DQUOTE
  else if Ascii.eqb c BACKSLASH then Some BACKSLASH
  else if Ascii.eqb c "/"%char then Some "/"%char
  else if Ascii.eqb c "b"%char then Some (ascii_of_N 8)
  else if Ascii.eqb c "t"%char then Some (ascii_of_N 9)
  else if Ascii.eqb c "n"%char then Some (ascii_of_N 10)
  else if Ascii.eqb c "f"%char then Some (ascii_of_N 12)
  else if Ascii.eqb c "r"%char then Some (ascii_of_N 13)
  else None.

(** The characters after an opening quote, up to the closing one. *)
Fixpoint parse_string (s : list ascii) : option (list ascii * list ascii) :=
  match s with
  | [] => None
  | c :: s' =>
      if Ascii.eqb c DQUOTE then Some ([], s')
      else if Ascii.eqb c BACKSLASH then
        match s' with
        | e :: s'' =>
            match unescape e, parse_string s'' with
            | Some x, Some (str, rest) => Some (x :: str, rest)
            | _, _ => None
            end
        | [] => None
        end
      else if N_of_ascii c <? 32 then None
      else
        match parse_string s' with
        | Some (str, rest) => Some (c :: str, rest)
        | None => None
        end
  end.

Fixpoint parse_value (fuel : nat) (s : list ascii) {struct fuel}
  : option (value * list ascii) :=
  match fuel with
  | O => None
  | S fuel' =>
      match skip_ws s with
      | [] => None
      | c :: r =>
          if Ascii.eqb c "["%char then
            match skip_ws r with
            | c' :: r' =>
                if Ascii.eqb c' "]"%char then Some (Arr [], r')
                else
                  match parse_elements fuel' r [] with
                  | Some (vs, rest) => Some (Arr vs, rest)
                  | None => None
                  end
            | [] => None
            end
          else if Ascii.eqb c "{"%char then
            match skip_ws r with
            | c' :: r' =>
                if Ascii.eqb c' "}"%char then Some (Obj [], r')
                else
                  match parse_members fuel' r [] with
                  | Some (ms, rest) => Some (Obj ms, rest)
                  | None => None
                  end
            | [] => None
            end
          else if Ascii.eqb c DQUOTE then
            match parse_string r with
            | Some (str, rest) => Some (Str (string_of_list_ascii str), rest)
            | None => None
            end
          else if Ascii.eqb c "n"%char then
            option_map (pair Null) (strip_prefix (list_ascii_of_string "ull") r)
          else if Ascii.eqb c "t"%char then
            option_map (pair (Bool true)) (strip_prefix (list_ascii_of_string "rue") r)
          else if Ascii.eqb c "f"%char then
            option_map (pair (Bool false)) (strip_prefix (list_ascii_of_string "alse") r)
          else
            match parse_number (c :: r) with
            | Some (n, rest) => Some (Num n, rest)
            | None => None
            end
      end
  end
with parse_elements (fuel : nat) (s : list ascii) (acc : list value) {struct fuel}
  : option (list value * list ascii) :=
  match fuel with
  | O => None
  | S fuel' =>
      match parse_value fuel' s with
      | Some (v, r) =>
          match skip_ws r with
          | c :: r' =>
              if Ascii.eqb c ","%char then parse_elements fuel' r' (v :: acc)
              else if Ascii.eqb c "]"%char then Some (rev (v :: acc), r')
              else None
          | [] => None
          end
      | None => None
      end
  end
with parse_members (fuel : nat) (s : list ascii) (acc : list (string * value))
  {struct fuel} : option (list (string * value) * list ascii) :=
  match fuel with
  | O => None
  | S fuel' =>
      match skip_ws s with
      | q :: r =>
          if Ascii.eqb q DQUOTE then
            match parse_string r with
            | Some (key, r1) =>
                match skip_ws r1 with
                | c :: r2 =>
                    if Ascii.eqb c ":"%char then
                      match parse_value fuel' r2 with
                      | Some (v, r3) =>
                          let m := (string_of_list_ascii key, v) in
                          match skip_ws r3 with
                          | c' :: r4 =>
                              if Ascii.eqb c' ","%char
                              then parse_members fuel' r4 (m :: acc)
                              else if Ascii.eqb c' "}"%char
                              then Some (rev (m :: acc), r4)
                              else None
                          | [] => None
                          end
                      | None => None
                      end
                    else None
                | [] => None
                end
            | None => None
            end
          else None
      | [] => None
      end
  end.

(** [None] is the [SyntaxError] of [JSON.parse]. *)
Definition parse (text : string) : option value :=
  let s := list_ascii_of_string text in
  match parse_value (S (List.length s)) s with
  | Some (v, rest) =>
      match skip_ws rest with
      | [] => Some v
      | _ :: _ => None
      end
  | None => None
  end.

(** Property access [v.key]: [None] is [undefined]. *)
Fixpoint lookup_member (key : string) (members : list (string * value)) : option value :=
  match members with
  | [] => None
  | (k, v) :: members' =>
      match lookup_member key members' with
      | Some v' => Some v'
      | None => if String.eqb k key then Some v else None
      end
  end.

(** ** Reading back what was written *)

Lemma digit_char_cases d :
  d < 10 -> In (digit_char d) (list_ascii_of_string "0123456789").
Proof.
  intros Hd.
  assert (Hc : d = 0 \/ d = 1 \/ d = 2 \/ d = 3 \/ d = 4 \/ d = 5 \/ d = 6 \/
               d = 7 \/ d = 8 \/ d = 9) by lia.
  repeat (destruct Hc as [->|Hc]; [vm_compute; tauto|]).
  subst; vm_compute; tauto.
Qed.

Lemma digit_char_spec d :
  d < 10 -> is_digit (digit_char d) = true /\ digit_value (digit_char d) = d.
Proof.
  intros Hd.
  assert (Hc : d = 0 \/ d = 1 \/ d = 2 \/ d = 3 \/ d = 4 \/ d = 5 \/ d = 6 \/
               d = 7 \/ d = 8 \/ d = 9) by lia.
  repeat (destruct Hc as [->|Hc]; [split; reflexivity|]).
  subst; split; reflexivity.
Qed.

Lemma is_digit_range c : is_digit c = true -> 48 <= N_of_ascii c <= 57.
Proof.
  unfold is_digit. intros H. apply andb_true_iff in H as [H1 H2].
  apply N.leb_le in H1, H2. lia.
Qed.

Lemma eqb_digit_false c x :
  is_digit c = true -> is_digit x = false -> Ascii.eqb c x = false.
Proof.
  intros Hc Hx. destruct (Ascii.eqb_spec c x) as [->|]; congruence.
Qed.

Lemma is_ws_digit c : is_digit c = true -> is_ws c = false.
Proof.
  intros H. apply is_digit_range in H. unfold is_ws.
  repeat (apply orb_false_iff; split); apply N.eqb_neq; lia.
Qed.

Lemma parse_digits_numeral ds acc rest :
  Forall (fun d => d < 10) ds -> starts_digit rest = false ->
  parse_digits acc (map digit_char ds ++ rest) = (of_digits 10 acc ds, rest).
Proof.
  intros Hds Hrest. revert acc.
  induction Hds as [|d ds Hd _ IH]; intros acc; cbn [map app parse_digits of_digits].
  - destruct rest as [|c rest]; auto.
    cbn [starts_digit parse_digits] in *. now rewrite Hrest.
  - destruct (digit_char_spec d Hd) as [-> ->]. apply IH.
Qed.

Lemma chars_of_N_head n : exists c cs, chars_of_N n = c :: cs /\ is_digit c = true.
Proof.
  unfold chars_of_N. destruct (N.eqb_spec n 0) as [->|Hnz].
  - eexists _, _; split; reflexivity.
  - pose proof (of_to_digits 10 ltac:(lia) n) as Hv.
    pose proof (to_digits_lt 10 ltac:(lia) n) as Hlt.
    destruct (to_digits 10 n) as [|d ds]; [simpl in Hv; congruence|].
    pose proof (Forall_inv Hlt). eexists _, _; split; [reflexivity|].
    now apply digit_char_spec.
Qed.

Lemma parse_nat_numeral n rest :
  starts_digit rest = false -> starts_fraction rest = false ->
  parse_nat (chars_of_N n ++ rest) = Some (n, rest).
Proof.
  intros Hd Hf. unfold chars_of_N. destruct (N.eqb_spec n 0) as [->|Hnz].
  - simpl. now rewrite Hd, Hf.
  - pose proof (of_to_digits 10 ltac:(lia) n) as Hv.
    pose proof (to_digits_lt 10 ltac:(lia) n) as Hlt.
    pose proof (to_digits_head_nonzero 10 ltac:(lia) n) as Hh.
    destruct (to_digits 10 n) as [|d ds]; [simpl in Hv; congruence|].
    pose proof (Forall_inv Hlt) as Hd10. pose proof (Forall_inv_tail Hlt) as Hds.
    cbn [head_nonzero of_digits] in Hh, Hv.
    cbn [map app parse_nat].
    destruct (digit_char_spec d Hd10) as [Hisd Hval].
    replace (Ascii.eqb (digit_char d) "0") with false.
    + rewrite Hisd, Hval, parse_digits_numeral by auto.
      change (0 * 10 + d) with d in Hv. now rewrite Hf, Hv.
    + symmetry. apply Ascii.eqb_neq. intros Heq.
      apply Hh. rewrite <- Hval, Heq. reflexivity.
Qed.

Lemma parse_number_numeral n rest :
  starts_digit rest = false -> starts_fraction rest = false ->
  parse_number (chars_of_Z (Z.of_N n) ++ rest) = Some (Z.of_N n, rest).
Proof.
  intros Hd Hf. unfold chars_of_Z.
  destruct (Z.ltb_spec (Z.of_N n) 0); [lia|]. rewrite N2Z.id.
  pose proof (parse_nat_numeral n rest Hd Hf) as Hp.
  destruct (chars_of_N_head n) as (c & cs & Hc & Hisd).
  rewrite Hc in *. cbn [app parse_number].
  rewrite (eqb_digit_false c "-") by auto.
  cbn [app] in Hp. now rewrite Hp.
Qed.

(** What may follow an element: a comma or the closing bracket. *)
Definition closes (rest : list ascii) : Prop :=
  exists c r, rest = c :: r /\ (c = ","%char \/ c = "]"%char).

Lemma closes_starts rest :
  closes rest -> starts_digit rest = false /\ starts_fraction rest = false.
Proof. intros (c & r & -> & [->| ->]); split; reflexivity. Qed.

Lemma parse_value_numeral fuel n rest :
  closes rest ->
  parse_value (S fuel) (chars_of_Z (Z.of_N n) ++ rest) = Some (Num (Z.of_N n), rest).
Proof.
  intros Hcl. destruct (closes_starts _ Hcl) as [Hd Hf].
  pose proof (parse_number_numeral n rest Hd Hf) as Hp.
  assert (Hhead : exists c cs, chars_of_Z (Z.of_N n) = c :: cs /\ is_digit c = true).
  { unfold chars_of_Z. destruct (Z.ltb_spec (Z.of_N n) 0); [lia|].
    rewrite N2Z.id. apply chars_of_N_head. }
  destruct Hhead as (c & cs & Hc & Hisd). rewrite Hc in *.
  cbn [parse_value app skip_ws]. rewrite (is_ws_digit c Hisd).
  rewrite !(eqb_digit_false c) by auto.
  cbn [app] in Hp. now rewrite Hp.
Qed.

Definition numerals (ns : list N) : list (list ascii) :=
  map stringify_chars (map (fun n => Num (Z.of_N n)) ns).

Lemma parse_elements_S fuel s acc :
  parse_elements (S fuel) s acc =
  match parse_value fuel s with
  | Some (v, r) =>
      match skip_ws r with
      | c :: r' =>
          if Ascii.eqb c ","%char then parse_elements fuel r' (v :: acc)
          else if Ascii.eqb c "]"%char then Some (rev (v :: acc), r')
          else None
      | [] => None
      end
  | None => None
  end.
Proof. reflexivity. Qed.

Lemma parse_elements_more fuel n s acc :
  parse_elements (S (S fuel)) (chars_of_Z (Z.of_N n) ++ ","%char :: s) acc
  = parse_elements (S fuel) s (Num (Z.of_N n) :: acc).
Proof.
  rewrite parse_elements_S, parse_value_numeral by (eexists _, _; eauto).
  reflexivity.
Qed.

Lemma parse_elements_last fuel n rest acc :
  parse_elements (S (S fuel)) (chars_of_Z (Z.of_N n) ++ "]"%char :: rest) acc
  = Some (rev (Num (Z.of_N n) :: acc), rest).
Proof.
  rewrite parse_elements_S, parse_value_numeral by (eexists _, _; eauto).
  reflexivity.
Qed.

Lemma parse_elements_numerals ns : forall fuel acc rest,
  ns <> [] -> (List.length ns < fuel)%nat ->
  parse_elements fuel (join "," (numerals ns) ++ "]"%char :: rest) acc
  = Some (rev acc ++ map (fun n => Num (Z.of_N n)) ns, rest).
Proof.
  induction ns as [|n ns IH]; intros fuel acc rest Hne Hfuel; [congruence|].
  destruct fuel as [|[|fuel]]; cbn [List.length] in Hfuel; try lia.
  destruct ns as [|n' ns'].
  - change (join "," (numerals [n])) with (chars_of_Z (Z.of_N n)).
    rewrite parse_elements_last. reflexivity.
  - change (join "," (numerals (n :: n' :: ns')))
      with (chars_of_Z (Z.of_N n) ++ ","%char :: join "," (numerals (n' :: ns'))).
    rewrite <- app_assoc.
    change ((","%char :: join "," (numerals (n' :: ns'))) ++ "]"%char :: rest)
      with (","%char :: (join "," (numerals (n' :: ns')) ++ "]"%char :: rest)).
    rewrite parse_elements_more, IH by (cbn [List.length] in *; try congruence; lia).
    cbn [rev map]. now rewrite <- app_assoc.
Qed.

Lemma length_join_numerals ns : (List.length ns <= List.length (join "," (numerals ns)))%nat.
Proof.
  induction ns as [|n ns IH]; simpl; auto.
  destruct (chars_of_N_head n) as (c & cs & Hc & _).
  assert (Hlen : (1 <= List.length (chars_of_Z (Z.of_N n)))%nat).
  { unfold chars_of_Z. destruct (Z.ltb_spec (Z.of_N n) 0); [lia|].
    rewrite N2Z.id, Hc. simpl. lia. }
  fold (numerals ns). destruct (numerals ns) eqn:E.
  - destruct ns; simpl in *; [lia|discriminate].
  - rewrite length_app. simpl in *. lia.
Qed.

Lemma parse_value_array fuel s :
  parse_value (S fuel) ("["%char :: s) =
  match skip_ws s with
  | c :: r =>
      if Ascii.eqb c "]"%char then Some (Arr [], r)
      else match parse_elements fuel s [] with
           | Some (vs, rest) => Some (Arr vs, rest)
           | None => None
           end
  | [] => None
  end.
Proof. reflexivity. Qed.

Lemma parse_value_numerals fuel ns rest :
  (List.length ns < fuel)%nat ->
  parse_value (S fuel) ("["%char :: join "," (numerals ns) ++ "]"%char :: rest)
  = Some (Arr (map (fun n => Num (Z.of_N n)) ns), rest).
Proof.
  intros Hfuel. rewrite parse_value_array.
  destruct ns as [|n ns]; [reflexivity|].
  rewrite parse_elements_numerals by (auto; congruence).
  assert (Hhead : exists c cs, join "," (numerals (n :: ns)) = c :: cs /\ is_digit c = true).
  { assert (Hn : exists c cs, chars_of_Z (Z.of_N n) = c :: cs /\ is_digit c = true).
    { unfold chars_of_Z. destruct (Z.ltb_spec (Z.of_N n) 0); [lia|].
      rewrite N2Z.id. apply chars_of_N_head. }
    destruct Hn as (c & cs & Hc & Hisd).
    destruct ns as [|n' ns'].
    - exists c, cs. split; auto.
    - exists c, (cs ++ ","%char :: join "," (numerals (n' :: ns'))).
      change (join "," (numerals (n :: n' :: ns')))
        with (chars_of_Z (Z.of_N n) ++ ","%char :: join "," (numerals (n' :: ns'))).
      rewrite Hc. split; auto. }
  destruct Hhead as (c & cs & -> & Hisd).
  cbn [app skip_ws]. rewrite (is_ws_digit c Hisd).
  now rewrite (eqb_digit_false c "]") by auto.
Qed.

Lemma parse_members_S fuel s acc :
  parse_members (S fuel) s acc =
  match skip_ws s with
  | q :: r =>
      if Ascii.eqb q DQUOTE then
        match parse_string r with
        | Some (key, r1) =>
            match skip_ws r1 with
            | c :: r2 =>
                if Ascii.eqb c ":"%char then
                  match parse_value fuel r2 with
                  | Some (v, r3) =>
                      let m := (string_of_list_ascii key, v) in
                      match skip_ws r3 with
                      | c' :: r4 =>
                          if Ascii.eqb c' ","%char
                          then parse_members fuel r4 (m :: acc)
                          else if Ascii.eqb c' "}"%char
                          then Some (rev (m :: acc), r4)
                          else None
                      | [] => None
                      end
                  | None => None
                  end
                else None
            | [] => None
            end
        | None => None
        end
      else None
  | [] => None
  end.
Proof. reflexivity. Qed.

Lemma parse_value_object fuel s :
  parse_value (S fuel) ("{"%char :: s) =
  match skip_ws s with
  | c :: r =>
      if Ascii.eqb c "}"%char then Some (Obj [], r)
      else match parse_members fuel s [] with
           | Some (ms, rest) => Some (Obj ms, rest)
           | None => None
           end
  | [] => None
  end.
Proof. reflexivity. Qed.

(** The object [{ privateKey: [n1, ..., nk] }]. *)
Definition key_object (ns : list N) : value :=
  Obj [("privateKey"%string, Arr (map (fun n => Num (Z.of_N n)) ns))].

Lemma stringify_key_object ns :
  stringify_chars (key_object ns) =
  "{"%char :: DQUOTE :: list_ascii_of_string "privateKey" ++
    DQUOTE :: ":"%char :: "["%char :: join "," (numerals ns) ++ "]"%char :: ["}"%char].
Proof.
  unfold key_object. cbn [stringify_chars map join fst snd].
  fold (numerals ns).
  change (quote "privateKey")
    with (DQUOTE :: list_ascii_of_string "privateKey" ++ [DQUOTE]).
  cbn [app]. do 2 f_equal. rewrite <- !app_assoc. cbn [app].
  do 4 f_equal. rewrite <- app_assoc. reflexivity.
Qed.

Lemma parse_string_privateKey rest :
  parse_string (list_ascii_of_string "privateKey" ++ DQUOTE :: rest)
  = Some (list_ascii_of_string "privateKey", rest).
Proof. reflexivity. Qed.

Lemma parse_stringify_key_object ns :
  parse (stringify (key_object ns)) = Some (key_object ns).
Proof.
  unfold parse, stringify. rewrite list_ascii_of_string_of_list_ascii.
  rewrite stringify_key_object.
  match goal with |- context [parse_value (S ?len) _] => set (fuel := len) end.
  assert (Hfuel : (List.length ns + 16 <= fuel)%nat).
  { unfold fuel. cbn [List.length]. rewrite length_app. cbn [List.length].
    rewrite length_app. pose proof (length_join_numerals ns).
    change (List.length (list_ascii_of_string "privateKey")) with 10%nat.
    cbn [List.length]. lia. }
  clearbody fuel.
  rewrite parse_value_object.
  destruct fuel as [|[|fuel]]; try lia.
  cbn [app skip_ws]. change (is_ws DQUOTE) with false. cbv beta iota.
  change (Ascii.eqb DQUOTE "}") with false. cbv beta iota.
  rewrite parse_members_S.
  cbn [app skip_ws]. change (is_ws DQUOTE) with false. cbv beta iota.
  change (Ascii.eqb DQUOTE DQUOTE) with true. cbv beta iota.
  rewrite parse_string_privateKey.
  cbn [skip_ws]. change (is_ws ":") with false. cbv beta iota.
  change (Ascii.eqb ":" ":") with true. cbv beta iota.
  rewrite parse_value_numerals by lia.
  reflexivity.
Qed.

Example stringify_key_object_text :
  stringify (key_object [1; 20; 255; 0]) =
  String "{" (String DQUOTE ("privateKey" ++ String DQUOTE ":[1,20,255,0]}"))%string.
Proof. vm_compute. reflexivity. Qed.

Example parse_skips_whitespace :
  parse " [ 1 , -2 , [ ] , null , true ] "
  = Some (Arr [Num 1; Num (-2); Arr []; Null; Bool true]).
Proof. vm_compute. reflexivity. Qed.

Example parse_rejects_leading_zero : parse "[01]" = None.
Proof. vm_compute. reflexivity. Qed.

End JSON.

Local Close Scope N_scope.
Local Open Scope string_scope.

(** * Values thrown and the effect monad *)

(** An [Error] instance, as the libraries and the runtime raise them. *)
Record JsError := mkError { err_name : string; err_message : string }.

(** What a [throw] statement can carry here: an [Error] instance passed
    along, or one of the object literals [{message, status}] of the
    service. *)
Inductive Thrown : Type :=
| ThrowError (e : JsError)
| ThrowObject (message : string) (status : Z).

(** [error.message] *)
Definition thrown_message (t : Thrown) : string :=
  match t with
  | ThrowError e => err_message e
  | ThrowObject m _ => m
  end.


Inductive Result (A : Type) : Type :=
| Ok (a : A)
| Throw (t : Thrown).
Arguments Ok {A} a.
Arguments Throw {A} t.

(** A computation over a state [S] that returns or throws. *)
Definition Eff (S A : Type) : Type := S -> Result A * S.

Definition ret {S A} (a : A) : Eff S A := fun s => (Ok a, s).

Definition throw {S A} (t : Thrown) : Eff S A := fun s => (Throw t, s).

Definition bind {S A B} (m : Eff S A) (k : A -> Eff S B) : Eff S B :=
  fun s =>
    match m s with
    | (Ok a, s') => k a s'
    | (Throw t, s') => (Throw t, s')
    end.

(** [try { body } catch (error) { handler }] *)
Definition try_catch {S A} (body : Eff S A) (handler : Thrown -> Eff S A) : Eff S A :=
  fun s =>
    match body s with
    | (Ok a, s') => (Ok a, s')
    | (Throw t, s') => handler t s'
    end.

(** A library function that returns or raises an [Error]. *)
Definition of_sum {S A} (r : JsError + A) : Eff S A :=
  match r with
  | inl e => throw (ThrowError e)
  | inr a => ret a
  end.

Declare Scope eff_scope.
Delimit Scope eff_scope with eff.
Notation "'let*' x ':=' m 'in' k" := (bind m (fun x => k))
  (at level 10, x name, m at level 100, k at level 200) : eff_scope.
Notation "m ';;' k" := (bind m (fun _ => k))
  (at level 100, k at level 200, right associativity) : eff_scope.
Local Open Scope eff_scope.

(** The line feed of the template strings. *)
Definition LF : string := String "010"%char "".

(** * Keys *)

Record PublicKey := mkPublicKey { pk_bytes : bytes }.

Record Keypair := mkKeypair { publicKey : PublicKey; secretKey : bytes }.

Definition PUBLIC_KEY_LENGTH : nat := 32.

Definition base58_decode (s : string) : JsError + bytes :=
  match Base58.decodeUnsafe s with
  | Some buffer => inr buffer
  | None => inl (mkError "Error" "Non-base58 character")
  end.

(** [new web3.PublicKey(value)] on a string. *)
Definition PublicKey_new (value : string) : JsError + PublicKey :=
  match base58_decode value with
  | inl e => inl e
  | inr decoded =>
      if Nat.eqb (List.length decoded) PUBLIC_KEY_LENGTH
      then inr (mkPublicKey decoded)
      else inl (mkError "Error" "Invalid public key input")
  end.

Definition toBase58 (p : PublicKey) : string := Base58.encode (pk_bytes p).

Definition bytes_eqb (a b : bytes) : bool :=
  bool_decide (map Byte.to_N a = map Byte.to_N b).

Lemma bytes_eqb_eq a b : bytes_eqb a b = true <-> a = b.
Proof.
  unfold bytes_eqb. rewrite bool_decide_eq_true. split; [|now intros ->].
  intros H. rewrite <- (map_byte_of_to_N a), <- (map_byte_of_to_N b). now rewrite H.
Qed.

(** * The libraries' data *)

Inductive Commitment : Type := confirmed | finalized.

(** [new web3.Connection(endpoint, {commitment})] *)
Record Connection := mkConnection {
  rpcEndpoint : string;
  commitment : Commitment
}.

(** [web3.clusterApiUrl(cluster)] for the cluster the service names. *)
Definition clusterApiUrl (cluster : string) : string :=
  "https://api." ++ cluster ++ ".solana.com".

Inductive ExtensionType : Type := MetadataPointer.

(** [TokenMetadata] of @solana/spl-token-metadata *)
Record TokenMetadata := mkTokenMetadata {
  md_updateAuthority : PublicKey;
  md_mint : PublicKey;
  md_name : string;
  md_symbol : string;
  md_uri : string;
  md_additionalMetadata : list (string * string)
}.

(** The instructions the service builds; each constructor keeps the
    arguments of the library function that builds it. *)
Inductive Instruction : Type :=
| SystemProgram_createAccount
    (fromPubkey newAccountPubkey : PublicKey) (space lamports : Z)
    (programId : PublicKey)
| createInitializeMetadataPointerInstruction
    (mint authority metadataAddress programId : PublicKey)
| createInitializeMintInstruction
    (mint : PublicKey) (decimals : Z) (mintAuthority : PublicKey)
    (freezeAuthority : option PublicKey) (programId : PublicKey)
| createInitializeInstruction
    (programId metadata updateAuthority mint mintAuthority : PublicKey)
    (name symbol uri : string)
| createUpdateFieldInstruction
    (programId metadata updateAuthority : PublicKey) (field value : string).

Record Transaction := mkTransaction { instructions : list Instruction }.

(** [new web3.Transaction()] and [transaction.add(...items)] *)
Definition Transaction_new : Transaction := mkTransaction [].

Definition Transaction_add (t : Transaction) (items : list Instruction) : Transaction :=
  mkTransaction (instructions t ++ items).

(** The result of [getMint]; the service reads [decimals] only. *)
Record Mint := mkMint { mint_address : PublicKey; mint_decimals : Z }.

(** The result of [getOrCreateAssociatedTokenAccount]; the service reads
    [address] only. *)
Record Account := mkAccount { account_address : PublicKey; account_owner : PublicKey }.

(** One element of [getTokenAccountsByOwner(...).value]. *)
Record TokenAccountEntry := mkTokenAccountEntry {
  entry_pubkey : PublicKey;
  entry_data : bytes
}.

(** What [AccountLayout.decode] returns; [amount] is a [bigint]. *)
Record RawAccount := mkRawAccount {
  raw_mint : PublicKey;
  raw_owner : PublicKey;
  raw_amount : N
}.

(** An owner or authority argument: a signer or a bare public key. *)
Inductive SignerOrKey : Type :=
| AsSigner (k : Keypair)
| AsPublicKey (p : PublicKey).

(** JavaScript numbers.  The arithmetic of [amount * Math.pow(10, decimals)]
    is IEEE-754; the operations stay abstract and the service's own code is
    stated over them. *)
Class JsNumber := {
  Number : Type;
  number_of_Z : Z -> Number;
  number_mul : Number -> Number -> Number;
  Math_pow : Number -> Number -> Number
}.

Section Calls.
Context {JN : JsNumber}.

(** The calls that reach the ledger, indexed by what they resolve to.
    Arguments are in the order of the library's signatures. *)
Inductive SdkCall : Type -> Type :=
| getMinimumBalanceForRentExemption (conn : Connection) (dataLength : Z) : SdkCall Z
| sendAndConfirmTransaction
    (conn : Connection) (transaction : Transaction) (signers : list Keypair)
  : SdkCall string
| getMint
    (conn : Connection) (address : PublicKey) (commit : option Commitment)
    (programId : PublicKey)
  : SdkCall Mint
| getOrCreateAssociatedTokenAccount
    (conn : Connection) (payer : Keypair) (mint owner : PublicKey)
    (allowOwnerOffCurve : option bool) (commit : option Commitment)
    (confirmOptions : option unit) (programId : PublicKey)
  : SdkCall Account
| getBalance (conn : Connection) (key : PublicKey) : SdkCall Z
| mintTo
    (conn : Connection) (payer : Keypair) (mint destination : PublicKey)
    (authority : SignerOrKey) (amount : Number) (multiSigners : list Keypair)
    (confirmOptions : option unit) (programId : PublicKey)
  : SdkCall string
| burn
    (conn : Connection) (payer : Keypair) (account mint : PublicKey)
    (owner : SignerOrKey) (amount : Number) (multiSigners : list Keypair)
    (confirmOptions : option unit) (programId : PublicKey)
  : SdkCall string
| transfer
    (conn : Connection) (payer : Keypair) (source destination : PublicKey)
    (owner : SignerOrKey) (amount : Number) (multiSigners : list Keypair)
    (confirmOptions : option unit) (programId : PublicKey)
  : SdkCall string
| confirmTransaction (conn : Connection) (signature : string) (commit : Commitment)
  : SdkCall unit
| getTokenAccountsByOwner (conn : Connection) (owner : PublicKey) (programId : PublicKey)
  : SdkCall (list TokenAccountEntry).

(** A call together with how it settled. *)
Inductive Event : Type :=
| Called {X : Type} (call : SdkCall X) (outcome : JsError + X).

(** The wrapped libraries.  [Ledger] is the state of everything behind the
    connection; [rpc] is any behaviour whatsoever of the remote side. *)
Class Sdk := {
  Ledger : Type;
  rpc : forall X, SdkCall X -> Ledger -> (JsError + X) * Ledger;
  (* Ed25519 *)
  getPublicKey : bytes -> bytes;
  randomPrivateKey : nat -> bytes;
  (* @solana/spl-token and @solana/spl-token-metadata *)
  TOKEN_2022_PROGRAM_ID : PublicKey;
  TYPE_SIZE : Z;
  LENGTH_SIZE : Z;
  getMintLen : list ExtensionType -> Z;
  pack : TokenMetadata -> bytes;
  AccountLayout_decode : bytes -> JsError + RawAccount
}.

(** What the service relies on from Ed25519: keys and seeds of 32 bytes. *)
Record SdkLaws (sdk : Sdk) : Prop := {
  getPublicKey_length :
    forall seed, List.length seed = 32%nat -> List.length (getPublicKey seed) = 32%nat;
  randomPrivateKey_length : forall n, List.length (randomPrivateKey n) = 32%nat
}.

End Calls.

(** * The service *)

Section Service.
Context {JN : JsNumber} {sdk : Sdk}.

(** ** The process and its surroundings *)

(** The file system with the one failure the service can meet when it
    writes, the entropy consumed so far, the ledger, the calls made to it
    and the console. *)
Record World := mkWorld {
  fs : gmap string string;
  fs_writable : bool;
  draws : nat;
  ledger : Ledger;
  trace : list Event;
  console : list (list string)
}.

(** The fields of [SolanaConnectionService]. *)
Record SolanaConnectionService := mkService {
  connection : Connection;
  walletFilePath : string;
  mainNet : bool;
  wallet : Keypair
}.

(** A constructed service in its world. *)
Record Machine := mkMachine {
  this : SolanaConnectionService;
  env : World
}.

Definition lift {A} (m : Eff World A) : Eff Machine A :=
  fun s =>
    match m (env s) with
    | (r, w) => (r, mkMachine (this s) w)
    end.

Definition get_this : Eff Machine SolanaConnectionService :=
  fun s => (Ok (this s), s).

(** [await call]: the ledger answers, the call is recorded. *)
Definition await {X} (call : SdkCall X) : Eff World X :=
  fun w =>
    match rpc X call (ledger w) with
    | (outcome, l) =>
        let w' := mkWorld (fs w) (fs_writable w) (draws w) l
                    (trace w ++ [Called call outcome]) (console w) in
        match outcome with
        | inl e => (Throw (ThrowError e), w')
        | inr x => (Ok x, w')
        end
    end.

Definition console_log (args : list string) : Eff World unit :=
  fun w =>
    (Ok tt, mkWorld (fs w) (fs_writable w) (draws w) (ledger w) (trace w)
              (console w ++ [args])).

Definition console_error := console_log.

(** [fs.existsSync], [fs.readFileSync(path, 'utf8')],
    [fs.writeFileSync(path, data, 'utf-8')] *)
Definition existsSync (path : string) : Eff World bool :=
  fun w => (Ok (bool_decide (is_Some (fs w !! path))), w).

Definition readFileSync (path : string) : Eff World string :=
  fun w =>
    match fs w !! path with
    | Some text => (Ok text, w)
    | None =>
        (Throw (ThrowError (mkError "Error" "ENOENT: no such file or directory")), w)
    end.

Definition writeFileSync (path data : string) : Eff World unit :=
  fun w =>
    if fs_writable w then
      (Ok tt, mkWorld (<[path := data]> (fs w)) (fs_writable w) (draws w)
                (ledger w) (trace w) (console w))
    else (Throw (ThrowError (mkError "Error" "EACCES: permission denied")), w).

(** ** [web3.Keypair] *)

Definition keypair_of_seed (privateScalar : bytes) : Keypair :=
  let publicKey := getPublicKey privateScalar in
  mkKeypair (mkPublicKey publicKey) (privateScalar ++ publicKey).

(** [Keypair.generate()]: a fresh private scalar from the entropy source. *)
Definition Keypair_generate : Eff World Keypair :=
  fun w =>
    (Ok (keypair_of_seed (randomPrivateKey (draws w))),
     mkWorld (fs w) (fs_writable w) (S (draws w)) (ledger w) (trace w) (console w)).

(** [Keypair.fromSecretKey(secretKey)]: the size check, then the public half
    is compared with the one derived from the private half. *)
Definition Keypair_fromSecretKey (secretKey : bytes) : JsError + Keypair :=
  if negb (Nat.eqb (List.length secretKey) 64)
  then inl (mkError "Error" "bad secret key size")
  else
    let publicKey := List.skipn 32 secretKey in
    let privateScalar := List.firstn 32 secretKey in
    let computedPublicKey := getPublicKey privateScalar in
    if bytes_eqb publicKey (List.firstn 32 computedPublicKey)
    then inr (mkKeypair (mkPublicKey publicKey) secretKey)
    else inl (mkError "Error" "provided secretKey is invalid").

(** ** The wallet file *)

(** [Array.from(secretKey)] *)
Definition Array_from (secretKey : bytes) : JSON.value :=
  JSON.Arr (map (fun b => JSON.Num (Z.of_N (Byte.to_N b))) secretKey).

(** [ToNumber] on a parsed element, then the store into the typed array.
    A string or a container as an element is read as [NaN], which is what
    JavaScript gives unless its text is itself a numeral. *)
Definition element_to_uint8 (v : JSON.value) : byte :=
  match v with
  | JSON.Num n => ToUint8 n
  | JSON.Bool true => x01
  | _ => x00
  end.

(** [new Uint8Array(x)] for [x] read from parsed JSON ([None] is
    [undefined]): an array gives its elements, a number a zeroed array of
    that length, anything else without a length the empty array. *)
Definition Uint8Array_new (x : option JSON.value) : JsError + bytes :=
  match x with
  | Some (JSON.Arr elements) => inr (map element_to_uint8 elements)
  | Some (JSON.Num n) =>
      if (n <? 0)%Z then inl (mkError "RangeError" "Invalid typed array length")
      else inr (repeat x00 (Z.to_nat n))
  | Some (JSON.Bool true) => inr [x00]
  | _ => inr []
  end.

(** [walletData.privateKey] *)
Definition get_privateKey (walletData : JSON.value) : JsError + option JSON.value :=
  match walletData with
  | JSON.Null =>
      inl (mkError "TypeError" "Cannot read properties of null (reading 'privateKey')")
  | JSON.Obj members => inr (JSON.lookup_member "privateKey" members)
  | _ => inr None
  end.

Definition JSON_parse (text : string) : JsError + JSON.value :=
  match JSON.parse text with
  | Some v => inr v
  | None => inl (mkError "SyntaxError" "Unexpected token in JSON")
  end.

(** ** Methods *)

(** [_getOrCreateWallet()].  It runs inside the constructor, when of [this]
    only the fields assigned before the call exist; it reads
    [this.walletFilePath], which is its parameter here. *)
Definition _getOrCreateWallet (this_walletFilePath : string) : Eff World Keypair :=
  try_catch
    (let* present := existsSync this_walletFilePath in
     if present then
       let* text := readFileSync this_walletFilePath in
       let* walletData := of_sum (JSON_parse text) in
       let* privateKey := of_sum (get_privateKey walletData) in
       let* secret := of_sum (Uint8Array_new privateKey) in
       let* wallet := of_sum (Keypair_fromSecretKey secret) in
       console_log ["Loaded existing SOL wallet: "; toBase58 (publicKey wallet)];;
       ret wallet
     else
       let* wallet := Keypair_generate in
       let walletJson := JSON.Obj [("privateKey", Array_from (secretKey wallet))] in
       writeFileSync this_walletFilePath (JSON.stringify walletJson);;
       console_log ["Created new wallet"];;
       ret wallet)
    (fun error =>
       console_error ["Error loading or creating wallet:"; thrown_message error];;
       throw (ThrowObject
                ("Error reading or creating solana wallet: " ++ thrown_message error)
                500)).

(** [constructor()] *)
Definition constructor : Eff World SolanaConnectionService :=
  let connection := mkConnection (clusterApiUrl "devnet") confirmed in
  let mainNet := false in
  let walletFilePath := "solWallet.json" in
  let* wallet := _getOrCreateWallet walletFilePath in
  ret (mkService connection walletFilePath mainNet wallet).

(** What [createWallet] returns. *)
Record CreatedWallet := mkCreatedWallet { privateKey : string; address : string }.

Definition createWallet : Eff Machine CreatedWallet :=
  let* walletBase := lift Keypair_generate in
  let privateKey := Base58.encode (secretKey walletBase) in
  let address := toBase58 (publicKey walletBase) in
  ret (mkCreatedWallet privateKey address).

Definition deployTokenContract (tokenName tokenSymbol image : string)
  : Eff Machine string :=
  let* self := get_this in
  let* mintKeypair := lift Keypair_generate in
  let mint := publicKey mintKeypair in
  let decimals := 9%Z in
  let metaData :=
    mkTokenMetadata (publicKey (wallet self)) mint tokenName tokenSymbol image
      [("description", "Only Possible On Solana")] in
  let metadataExtension := (TYPE_SIZE + LENGTH_SIZE)%Z in
  let metadataLen := Z.of_nat (List.length (pack metaData)) in
  let mintLen := getMintLen [MetadataPointer] in
  let* lamports :=
    lift (await (getMinimumBalanceForRentExemption (connection self)
                   (mintLen + metadataExtension + metadataLen)%Z)) in
  let createAccountInstruction :=
    SystemProgram_createAccount (publicKey (wallet self)) mint mintLen lamports
      TOKEN_2022_PROGRAM_ID in
  let initializeMetadataPointerInstruction :=
    createInitializeMetadataPointerInstruction mint (publicKey (wallet self)) mint
      TOKEN_2022_PROGRAM_ID in
  let initializeMintInstruction :=
    createInitializeMintInstruction mint decimals (publicKey (wallet self))
      (Some (publicKey (wallet self))) TOKEN_2022_PROGRAM_ID in
  let initializeMetadataInstruction :=
    createInitializeInstruction TOKEN_2022_PROGRAM_ID mint (publicKey (wallet self))
      mint (publicKey (wallet self))
      (md_name metaData) (md_symbol metaData) (md_uri metaData) in
  let* field0 :=
    match md_additionalMetadata metaData with
    | kv :: _ => ret kv
    | [] => throw (ThrowError (mkError "TypeError" "Cannot read properties of undefined"))
    end in
  let updateFieldInstruction :=
    createUpdateFieldInstruction TOKEN_2022_PROGRAM_ID mint (publicKey (wallet self))
      (fst field0) (snd field0) in
  let transaction :=
    Transaction_add Transaction_new
      [createAccountInstruction;
       initializeMetadataPointerInstruction;
       initializeMintInstruction;
       initializeMetadataInstruction;
       updateFieldInstruction] in
  let* transactionSignature :=
    lift (await (sendAndConfirmTransaction (connection self) transaction
                   [wallet self; mintKeypair])) in
  lift (console_log
          [LF ++ "Create Mint Account:";
           "https://solana.fm/tx/" ++ transactionSignature ++ "?cluster=devnet-solana"]);;
  ret (toBase58 mint).

Definition getVaultWalletAddress : Eff Machine string :=
  let* self := get_this in
  ret (toBase58 (publicKey (wallet self))).

(** What [getTokenInstanceAndDecimals] returns. *)
Record TokenInstance := mkTokenInstance { contract : PublicKey; decimals : Z }.

Definition getTokenInstanceAndDecimals (token_address : string)
  : Eff Machine TokenInstance :=
  let* self := get_this in
  try_catch
    (let* mint := of_sum (PublicKey_new token_address) in
     let* mintInfo :=
       lift (await (getMint (connection self) mint (Some confirmed)
                      TOKEN_2022_PROGRAM_ID)) in
     ret (mkTokenInstance mint (mint_decimals mintInfo)))
    (fun error =>
       lift (console_error ["Error loading contract:"; thrown_message error]);;
       throw error).

Definition getATC (payer : Keypair) (mint owner : PublicKey) : Eff Machine Account :=
  let* self := get_this in
  lift (await (getOrCreateAssociatedTokenAccount (connection self) payer mint owner
                 None None None TOKEN_2022_PROGRAM_ID)).

Definition getSolBalance : Eff Machine Z :=
  let* self := get_this in
  try_catch
    (lift (await (getBalance (connection self) (publicKey (wallet self)))))
    (fun error =>
       lift (console_error ["Error getting SOL balance:"; thrown_message error]);;
       throw error).

Definition mintTokensToUser (tokenAddress toAddress : string) (amount : Number)
  : Eff Machine string :=
  let* self := get_this in
  try_catch
    (let* mint := of_sum (PublicKey_new tokenAddress) in
     let* to := of_sum (PublicKey_new toAddress) in
     let* tokenAccount := getATC (wallet self) mint to in
     let* mintInfo :=
       lift (await (getMint (connection self) mint None TOKEN_2022_PROGRAM_ID)) in
     let adjustedAmount :=
       number_mul amount
         (Math_pow (number_of_Z 10) (number_of_Z (mint_decimals mintInfo))) in
     let* tx :=
       lift (await (mintTo (connection self) (wallet self) mint
                      (account_address tokenAccount)
                      (AsPublicKey (publicKey (wallet self)))
                      adjustedAmount [wallet self] None TOKEN_2022_PROGRAM_ID)) in
     lift (await (confirmTransaction (connection self) tx finalized));;
     ret tx)
    (fun error =>
       lift (console_error ["Error minting tokens:"; thrown_message error]);;
       throw error).

Definition burnTokensFromUser (tokenAddress wallet_ : string) (amount : Number)
  : Eff Machine string :=
  let* self := get_this in
  try_catch
    (let* walletSecretKey := of_sum (base58_decode wallet_) in
     let* mint := of_sum (PublicKey_new tokenAddress) in
     let* userWallet :=
       try_catch
         (of_sum (Keypair_fromSecretKey walletSecretKey))
         (fun _ =>
            throw (ThrowObject "Invalid secret key provided for burnTokensFromUser" 400)) in
     let* tokenAccount := getATC (wallet self) mint (publicKey userWallet) in
     let* mintInfo :=
       lift (await (getMint (connection self) mint None TOKEN_2022_PROGRAM_ID)) in
     let adjustedAmount :=
       number_mul amount
         (Math_pow (number_of_Z 10) (number_of_Z (mint_decimals mintInfo))) in
     let* tx :=
       lift (await (burn (connection self) (wallet self)
                      (account_address tokenAccount) mint (AsSigner userWallet)
                      adjustedAmount [userWallet] (Some tt) TOKEN_2022_PROGRAM_ID)) in
     lift (await (confirmTransaction (connection self) tx finalized));;
     ret tx)
    (fun error =>
       lift (console_error ["Error burning tokens:"; thrown_message error]);;
       throw error).

(** One element of what [getWalletTokenBalance] returns. *)
Record TokenBalance := mkTokenBalance { token_address : string; balance : N }.

(** The body of the [forEach]: decode, then push. *)
Fixpoint forEach_decode (accounts : list TokenAccountEntry) (tokenBalances : list TokenBalance)
  : Eff Machine (list TokenBalance) :=
  match accounts with
  | [] => ret tokenBalances
  | tokenAccount :: rest =>
      let* accountData := of_sum (AccountLayout_decode (entry_data tokenAccount)) in
      forEach_decode rest
        (tokenBalances ++
           [mkTokenBalance (toBase58 (raw_mint accountData)) (raw_amount accountData)])
  end.

Definition getWalletTokenBalance (address_ : string) : Eff Machine (list TokenBalance) :=
  let* self := get_this in
  let* owner := of_sum (PublicKey_new address_) in
  let* tokenAccounts :=
    lift (await (getTokenAccountsByOwner (connection self) owner
                   TOKEN_2022_PROGRAM_ID)) in
  let tokenBalances := [] in
  forEach_decode tokenAccounts tokenBalances.

Definition transferTokens (tokenAddress to : string) (amount : Number) (wallet_ : string)
  : Eff Machine string :=
  let* self := get_this in
  let* walletSecretKey := of_sum (base58_decode wallet_) in
  let* userWallet :=
    try_catch
      (of_sum (Keypair_fromSecretKey walletSecretKey))
      (fun _ =>
         throw (ThrowObject "Invalid secret key provided for transferTokens" 400)) in
  try_catch
    (let* mint := of_sum (PublicKey_new tokenAddress) in
     let* toPublicKey := of_sum (PublicKey_new to) in
     let* fromTokenAccount := getATC (wallet self) mint (publicKey userWallet) in
     let* toTokenAccount := getATC (wallet self) mint toPublicKey in
     let* mintInfo :=
       lift (await (getMint (connection self) mint None TOKEN_2022_PROGRAM_ID)) in
     let adjustedAmount :=
       number_mul amount
         (Math_pow (number_of_Z 10) (number_of_Z (mint_decimals mintInfo))) in
     let* tx :=
       lift (await (transfer (connection self) (wallet self)
                      (account_address fromTokenAccount)
                      (account_address toTokenAccount)
                      (AsPublicKey (publicKey userWallet))
                      adjustedAmount [userWallet] None TOKEN_2022_PROGRAM_ID)) in
     lift (await (confirmTransaction (connection self) tx finalized));;
     ret tx)
    (fun error =>
       lift (console_error ["Error transferring tokens:"; thrown_message error]);;
       throw error).

End Service.

Arguments PublicKey_new : simpl never.
Arguments base58_decode : simpl never.
Arguments toBase58 : simpl never.
Arguments Keypair_fromSecretKey : simpl never.
Arguments JSON_parse : simpl never.
Arguments JSON.stringify : simpl never.
Arguments Base58.encode : simpl never.
Arguments Base58.decodeUnsafe : simpl never.

(** * A ledger to run the service against

    Exact integers for the numbers, a ledger that answers every call while
    it is online and refuses every call while it is not, and a stand-in for
    the Ed25519 derivation that keeps the sizes. *)

Module Mock.

Definition numbers : JsNumber :=
  {| Number := Z; number_of_Z := fun z => z; number_mul := Z.mul; Math_pow := Z.pow |}.

Record MockLedger := mkLedger { online : bool; submitted : nat }.

Definition fetch_failed : JsError := mkError "TypeError" "fetch failed".

Definition derive (seed : bytes) : bytes :=
  List.firstn 32 (rev seed ++ repeat x00 32).

Definition seed_of (n : nat) : bytes :=
  repeat (byte_of_N (N.of_nat (S n))) 32.

(** Mint in bytes 0-31, owner in bytes 32-63, amount in bytes 64-71, little
    endian. *)
Definition decode (data : bytes) : JsError + RawAccount :=
  if Nat.ltb (List.length data) 72
  then inl (mkError "RangeError" "Trying to access beyond buffer length")
  else inr (mkRawAccount
              (mkPublicKey (List.firstn 32 data))
              (mkPublicKey (List.firstn 32 (List.skipn 32 data)))
              (Radix.of_digits 256 0
                 (rev (map Byte.to_N (List.firstn 8 (List.skipn 64 data)))))).

Definition token_account (fill : byte) (amount : byte) : TokenAccountEntry :=
  mkTokenAccountEntry (mkPublicKey (repeat fill 32))
    (repeat fill 32 ++ repeat x09 32 ++ [amount; x01] ++ repeat x00 6).

Definition answer {X} (call : @SdkCall numbers X) (l : MockLedger)
  : (JsError + X) * MockLedger :=
  if negb (online l) then (inl fetch_failed, l)
  else
    match call in SdkCall X return (JsError + X) * MockLedger with
    | getMinimumBalanceForRentExemption _ dataLength =>
        (inr ((128 + dataLength) * 6960)%Z, l)
    | sendAndConfirmTransaction _ _ _ =>
        (inr "5VERv8NMvzbJMEkV8xnrLkEaWRtSz9CosKDYjCJjBRnb",
         mkLedger true (S (submitted l)))
    | getMint _ address _ _ => (inr (mkMint address 9), l)
    | getOrCreateAssociatedTokenAccount _ _ mint owner _ _ _ _ =>
        (inr (mkAccount (mkPublicKey (rev (pk_bytes owner))) owner), l)
    | getBalance _ _ => (inr 1000000000%Z, l)
    | mintTo _ _ _ _ _ _ _ _ _ =>
        (inr "3mintTo", mkLedger true (S (submitted l)))
    | burn _ _ _ _ _ _ _ _ _ =>
        (inr "3burn", mkLedger true (S (submitted l)))
    | transfer _ _ _ _ _ _ _ _ _ =>
        (inr "3transfer", mkLedger true (S (submitted l)))
    | confirmTransaction _ _ _ => (inr tt, l)
    | getTokenAccountsByOwner _ _ _ =>
        (inr [token_account x07 x05; token_account x08 x00], l)
    end.

Definition sdk : @Sdk numbers :=
  {| Ledger := MockLedger;
     rpc := @answer;
     getPublicKey := derive;
     randomPrivateKey := seed_of;
     TOKEN_2022_PROGRAM_ID := mkPublicKey (repeat x06 32);
     TYPE_SIZE := 2;
     LENGTH_SIZE := 2;
     getMintLen := fun _ => 234%Z;
     pack := fun md =>
       (pk_bytes (md_updateAuthority md) ++ pk_bytes (md_mint md) ++
        map (fun c => byte_of_N (N_of_ascii c))
          (list_ascii_of_string (md_name md ++ md_symbol md ++ md_uri md)))%list;
     AccountLayout_decode := decode |}.

Lemma laws : SdkLaws sdk.
Proof.
  split.
  - intros seed _. change (List.length (derive seed) = 32%nat).
    unfold derive. rewrite length_take, length_app, repeat_length. lia.
  - intros n. reflexivity.
Qed.

Definition world (online_ : bool) (files : gmap string string) : @World numbers sdk :=
  @mkWorld numbers sdk files true 0 (mkLedger online_ 0) [] [].

Definition vault : Keypair := @keypair_of_seed numbers sdk (repeat x2a 32).

Definition service : @SolanaConnectionService :=
  mkService (mkConnection (clusterApiUrl "devnet") confirmed) "solWallet.json" false vault.

Definition machine (online_ : bool) : @Machine numbers sdk :=
  @mkMachine numbers sdk service (world online_ ∅).

End Mock.

(** * Properties *)

Section Properties.
Context {JN : JsNumber} {sdk : Sdk}.

(** ** Every public operation as one value *)

Inductive Operation : Type :=
| Op_createWallet
| Op_deployTokenContract (tokenName tokenSymbol image : string)
| Op_getVaultWalletAddress
| Op_getTokenInstanceAndDecimals (token_address : string)
| Op_getSolBalance
| Op_mintTokensToUser (tokenAddress toAddress : string) (amount : Number)
| Op_burnTokensFromUser (tokenAddress wallet_ : string) (amount : Number)
| Op_getWalletTokenBalance (address_ : string)
| Op_transferTokens (tokenAddress to : string) (amount : Number) (wallet_ : string).

(** How a call ended: [None] when it returned. *)
Definition thrown_by {A} (r : Result A) : option Thrown :=
  match r with
  | Ok _ => None
  | Throw t => Some t
  end.

Definition forget {A} (r : Result A * Machine) : option Thrown * Machine :=
  (thrown_by (fst r), snd r).

Definition perform (op : Operation) (s : Machine) : option Thrown * Machine :=
  match op with
  | Op_createWallet => forget (createWallet s)
  | Op_deployTokenContract n sy i => forget (deployTokenContract n sy i s)
  | Op_getVaultWalletAddress => forget (getVaultWalletAddress s)
  | Op_getTokenInstanceAndDecimals a => forget (getTokenInstanceAndDecimals a s)
  | Op_getSolBalance => forget (getSolBalance s)
  | Op_mintTokensToUser t a n => forget (mintTokensToUser t a n s)
  | Op_burnTokensFromUser t w n => forget (burnTokensFromUser t w n s)
  | Op_getWalletTokenBalance a => forget (getWalletTokenBalance a s)
  | Op_transferTokens t a n w => forget (transferTokens t a n w s)
  end.

(** The calls made between two states of the same run. *)
Definition new_events (before after : Machine) : list Event :=
  drop (List.length (trace (env before))) (trace (env after)).

(** ** The service object is never assigned to *)

Definition keeps_this {A} (m : Eff Machine A) : Prop :=
  forall s, this (snd (m s)) = this s.

Lemma keeps_ret {A} (a : A) : keeps_this (ret a).
Proof. intros s. reflexivity. Qed.

Lemma keeps_throw {A} t : keeps_this (@throw Machine A t).
Proof. intros s. reflexivity. Qed.

Lemma keeps_get_this : keeps_this get_this.
Proof. intros s. reflexivity. Qed.

Lemma keeps_lift {A} (m : Eff World A) : keeps_this (lift m).
Proof. intros s. unfold lift. now destruct (m (env s)). Qed.

Lemma keeps_of_sum {A} (r : JsError + A) : keeps_this (of_sum r).
Proof. destruct r; intros s; reflexivity. Qed.

Lemma keeps_bind {A B} (m : Eff Machine A) (k : A -> Eff Machine B) :
  keeps_this m -> (forall a, keeps_this (k a)) -> keeps_this (bind m k).
Proof.
  intros Hm Hk s. unfold bind. specialize (Hm s).
  destruct (m s) as [[a|t] s']; simpl in *; [|assumption].
  now rewrite Hk.
Qed.

Lemma keeps_try_catch {A} (body : Eff Machine A) handler :
  keeps_this body -> (forall t, keeps_this (handler t)) ->
  keeps_this (try_catch body handler).
Proof.
  intros Hb Hh s. unfold try_catch. specialize (Hb s).
  destruct (body s) as [[a|t] s']; simpl in *; [assumption|].
  now rewrite Hh.
Qed.

Lemma keeps_forEach_decode accounts : forall tokenBalances,
  keeps_this (forEach_decode accounts tokenBalances).
Proof.
  induction accounts as [|a accounts IH]; intros tb; simpl.
  - apply keeps_ret.
  - apply keeps_bind; [apply keeps_of_sum|]. intros raw. apply IH.
Qed.

Create HintDb frame.
#[local] Hint Resolve keeps_ret keeps_throw keeps_get_this keeps_lift keeps_of_sum
  keeps_forEach_decode : frame.

Ltac frame_step :=
  first
    [ apply keeps_bind; [|intros ?]
    | apply keeps_try_catch; [|intros ?]
    | solve [auto with frame]
    | progress cbv zeta
    | match goal with
      | |- keeps_this (match ?x with _ => _ end) => destruct x
      end ].

Lemma keeps_getATC payer mint owner : keeps_this (getATC payer mint owner).
Proof. unfold getATC. repeat frame_step. Qed.
#[local] Hint Resolve keeps_getATC : frame.

Lemma keeps_forget {A} (m : Eff Machine A) s :
  keeps_this m -> this (snd (forget (m s))) = this s.
Proof. intros H. apply H. Qed.

(** C7.  No public operation assigns to a field of the service object:
    after any call of any operation, whether it returned or threw,
    [connection], [walletFilePath], [mainNet] and [wallet] are what they were
    before the call. *)
Theorem operations_keep_the_service_fields (op : Operation) (s : Machine) :
  let s' := snd (perform op s) in
  connection (this s') = connection (this s) /\
  walletFilePath (this s') = walletFilePath (this s) /\
  mainNet (this s') = mainNet (this s) /\
  wallet (this s') = wallet (this s).
Proof.
  assert (H : this (snd (perform op s)) = this s).
  { destruct op; cbn [perform]; apply keeps_forget.
    - unfold createWallet. repeat frame_step.
    - unfold deployTokenContract. repeat frame_step.
    - unfold getVaultWalletAddress. repeat frame_step.
    - unfold getTokenInstanceAndDecimals. repeat frame_step.
    - unfold getSolBalance. repeat frame_step.
    - unfold mintTokensToUser. repeat frame_step.
    - unfold burnTokensFromUser. repeat frame_step.
    - unfold getWalletTokenBalance. repeat frame_step.
    - unfold transferTokens. repeat frame_step. }
  cbv zeta. now rewrite H.
Qed.

(** ** Token deployment *)

Inductive InstructionKind : Type :=
| CreateAccount
| InitializeMetadataPointer
| InitializeMint
| InitializeMetadata
| UpdateField.

Definition instruction_kind (i : Instruction) : InstructionKind :=
  match i with
  | SystemProgram_createAccount _ _ _ _ _ => CreateAccount
  | createInitializeMetadataPointerInstruction _ _ _ _ => InitializeMetadataPointer
  | createInitializeMintInstruction _ _ _ _ _ => InitializeMint
  | createInitializeInstruction _ _ _ _ _ _ _ _ => InitializeMetadata
  | createUpdateFieldInstruction _ _ _ _ _ => UpdateField
  end.

(** The transactions handed to [sendAndConfirmTransaction], in order. *)
Definition transactions_sent (events : list Event) : list Transaction :=
  flat_map
    (fun ev =>
       match ev with
       | Called call _ =>
           match call with
           | sendAndConfirmTransaction _ transaction _ => [transaction]
           | _ => []
           end
       end)
    events.

(** The rent query of [deployTokenContract] and the transaction it builds
    from the answer. *)
Definition rent_query (self : SolanaConnectionService) (mintKeypair : Keypair)
    (tokenName tokenSymbol image : string) : SdkCall Z :=
  getMinimumBalanceForRentExemption (connection self)
    (getMintLen [MetadataPointer] + (TYPE_SIZE + LENGTH_SIZE) +
     Z.of_nat (List.length
       (pack (mkTokenMetadata (publicKey (wallet self)) (publicKey mintKeypair)
                tokenName tokenSymbol image
                [("description", "Only Possible On Solana")]))))%Z.

Definition mint_transaction (self : SolanaConnectionService) (mintKeypair : Keypair)
    (tokenName tokenSymbol image : string) (lamports : Z) : Transaction :=
  let mint := publicKey mintKeypair in
  let vault := publicKey (wallet self) in
  mkTransaction
    [SystemProgram_createAccount vault mint (getMintLen [MetadataPointer]) lamports
       TOKEN_2022_PROGRAM_ID;
     createInitializeMetadataPointerInstruction mint vault mint TOKEN_2022_PROGRAM_ID;
     createInitializeMintInstruction mint 9 vault (Some vault) TOKEN_2022_PROGRAM_ID;
     createInitializeInstruction TOKEN_2022_PROGRAM_ID mint vault mint vault
       tokenName tokenSymbol image;
     createUpdateFieldInstruction TOKEN_2022_PROGRAM_ID mint vault
       "description" "Only Possible On Solana"].

Lemma new_events_app (s s' : Machine) evs :
  trace (env s') = (trace (env s) ++ evs)%list -> new_events s s' = evs.
Proof. intros H. unfold new_events. rewrite H. apply drop_app_length. Qed.

(** The three ways a deployment can go. *)
Lemma deployTokenContract_run tokenName tokenSymbol image (s : Machine) :
  let self := this s in
  let mintKeypair := keypair_of_seed (randomPrivateKey (draws (env s))) in
  let query := rent_query self mintKeypair tokenName tokenSymbol image in
  let r := deployTokenContract tokenName tokenSymbol image s in
  draws (env (snd r)) = S (draws (env s)) /\
  match rpc Z query (ledger (env s)) with
  | (inl e, _) =>
      fst r = Throw (ThrowError e) /\
      new_events s (snd r) = [Called query (inl e)]
  | (inr lamports, l) =>
      let send :=
        sendAndConfirmTransaction (connection self)
          (mint_transaction self mintKeypair tokenName tokenSymbol image lamports)
          [wallet self; mintKeypair] in
      match rpc string send l with
      | (inl e, _) =>
          fst r = Throw (ThrowError e) /\
          new_events s (snd r) = [Called query (inr lamports); Called send (inl e)]
      | (inr signature, _) =>
          fst r = Ok (toBase58 (publicKey mintKeypair)) /\
          new_events s (snd r) = [Called query (inr lamports); Called send (inr signature)]
      end
  end.
Proof.
  destruct s as [self w]. cbv zeta. cbn [this env].
  unfold deployTokenContract, rent_query, mint_transaction.
  unfold bind, lift, get_this, Keypair_generate, await, console_log, ret.
  cbn [this env fst snd fs fs_writable draws ledger trace console
       md_additionalMetadata md_name md_symbol md_uri Transaction_add Transaction_new
       instructions app].
  destruct (rpc Z _ (ledger w)) as [[e|lamports] l];
    cbn [this env fst snd fs fs_writable draws ledger trace console].
  - split; [reflexivity|]. split; [reflexivity|]. now apply new_events_app.
  - destruct (rpc string _ l) as [[e|signature] l'];
      cbn [this env fst snd fs fs_writable draws ledger trace console].
    + split; [reflexivity|]. split; [reflexivity|].
      apply new_events_app. cbn [env trace]. now rewrite <- app_assoc.
    + split; [reflexivity|]. split; [reflexivity|].
      apply new_events_app. cbn [env trace]. now rewrite <- app_assoc.
Qed.

Definition five_kinds : list InstructionKind :=
  [CreateAccount; InitializeMetadataPointer; InitializeMint; InitializeMetadata;
   UpdateField].


(** C6.  A call of [deployTokenContract] that returns has drawn a fresh mint
    keypair from the entropy source, has sent -- after the rent query -- one
    transaction signed by the custodial wallet and the mint keypair, whose
    instructions create the mint account, fix the decimals to 9, make the
    custodial wallet the mint authority, the freeze authority and the
    metadata update authority, attach the given name, symbol and URI, and it
    returns the base58 address of the new mint. *)
Theorem deployTokenContract_registers_the_token
    (tokenName tokenSymbol image : string) (s : Machine) (returned : string) :
  let self := this s in
  let vault := publicKey (wallet self) in
  let mintKeypair := keypair_of_seed (randomPrivateKey (draws (env s))) in
  let mint := publicKey mintKeypair in
  let r := deployTokenContract tokenName tokenSymbol image s in
  fst r = Ok returned ->
  returned = toBase58 mint /\
  draws (env (snd r)) = S (draws (env s)) /\
  exists lamports signature,
    new_events s (snd r) =
    [Called (rent_query self mintKeypair tokenName tokenSymbol image) (inr lamports);
     Called
       (sendAndConfirmTransaction (connection self)
          (mkTransaction
             [SystemProgram_createAccount vault mint (getMintLen [MetadataPointer])
                lamports TOKEN_2022_PROGRAM_ID;
              createInitializeMetadataPointerInstruction mint vault mint
                TOKEN_2022_PROGRAM_ID;
              createInitializeMintInstruction mint 9 vault (Some vault)
                TOKEN_2022_PROGRAM_ID;
              createInitializeInstruction TOKEN_2022_PROGRAM_ID mint vault mint vault
                tokenName tokenSymbol image;
              createUpdateFieldInstruction TOKEN_2022_PROGRAM_ID mint vault
                "description" "Only Possible On Solana"])
          [wallet self; mintKeypair])
       (inr signature)].
Proof.
  cbv zeta. intros Hret.
  destruct (deployTokenContract_run tokenName tokenSymbol image s) as [Hdraws Hrun].
  cbv zeta in Hrun.
  destruct (rpc Z _ _) as [[e|lamports] l].
  - destruct Hrun as [Hr _]. congruence.
  - destruct (rpc string _ _) as [[e|signature] l']; destruct Hrun as [Hr Hev].
    + congruence.
    + rewrite Hr in Hret. injection Hret as <-.
      split; [reflexivity|]. split; [assumption|].
      exists lamports, signature. exact Hev.
Qed.

(** ** Amounts *)

(** The [amount] argument of every [mintTo], [burn] and [transfer] call. *)
Definition amounts_passed (events : list Event) : list Number :=
  flat_map
    (fun ev =>
       match ev with
       | Called call _ =>
           match call with
           | mintTo _ _ _ _ _ amount _ _ _
           | burn _ _ _ _ _ amount _ _ _
           | transfer _ _ _ _ _ amount _ _ _ => [amount]
           | _ => []
           end
       end)
    events.




Lemma bytes_eqb_refl a : bytes_eqb a a = true.
Proof. now apply bytes_eqb_eq. Qed.

(** Symbolic execution of a method body: unfold the monad, then split on
    each library call as it comes. *)
Ltac unfold_eff :=
  unfold getATC, try_catch, bind, lift, get_this, await, console_error, console_log,
    ret, throw in *.

Ltac simpl_run :=
  cbn [of_sum ret throw this env fst snd fs fs_writable draws ledger trace console
       thrown_by forget].

Ltac on_rpc :=
  match goal with
  | |- context [rpc ?X ?c ?l] =>
      let e := fresh "e" in
      let x := fresh "x" in
      let l' := fresh "l" in
      destruct (rpc X c l) as [[e|x] l']; simpl_run
  end.

Ltac events_done :=
  erewrite new_events_app
    by (cbn [env trace]; rewrite <- ?app_assoc; cbn [app];
        first [reflexivity | symmetry; apply app_nil_r]).


(** ** Errors *)





Lemma forEach_decode_run accounts : forall tokenBalances (s : Machine),
  snd (forEach_decode accounts tokenBalances s) = s /\
  match fst (forEach_decode accounts tokenBalances s) with
  | Ok result =>
      exists entries,
        result = (tokenBalances ++ entries)%list /\
        Forall2
          (fun tokenAccount entry =>
             exists accountData,
               AccountLayout_decode (entry_data tokenAccount) = inr accountData /\
               entry = mkTokenBalance (toBase58 (raw_mint accountData))
                         (raw_amount accountData))
          accounts entries
  | Throw t => exists e, t = ThrowError e
  end.
Proof.
  induction accounts as [|a accounts IH]; intros tb s.
  - cbn. split; [reflexivity|]. exists []. split; [now rewrite app_nil_r|constructor].
  - cbn [forEach_decode]. unfold bind.
    destruct (AccountLayout_decode (entry_data a)) as [e|raw] eqn:Hraw; cbn [of_sum ret throw].
    + cbn. split; eauto.
    + specialize (IH (tb ++ [mkTokenBalance (toBase58 (raw_mint raw)) (raw_amount raw)])%list s).
      destruct IH as [Hs Hr]. split; [exact Hs|].
      destruct (fst (forEach_decode accounts _ s)) as [result|t]; [|exact Hr].
      destruct Hr as (entries & -> & Hall).
      exists (mkTokenBalance (toBase58 (raw_mint raw)) (raw_amount raw) :: entries).
      split; [now rewrite <- app_assoc|].
      constructor; eauto.
Qed.


(** C8, as the code has it.  When the wallet argument decodes to bytes that
    [Keypair.fromSecretKey] rejects, [transferTokens] throws
    [{message, status: 400}], and so does [burnTokensFromUser] when its
    [tokenAddress] is a public key; [burnTokensFromUser] builds the mint's
    [PublicKey] first and with a [tokenAddress] that is none it throws that
    constructor's error.  In every case no call to the ledger is made. *)
Theorem rejected_secret_key_stops_before_the_ledger
    (tokenAddress to wallet_ : string) (amount : Number) (s : Machine)
    (walletSecretKey : bytes) (rejection : JsError) :
  base58_decode wallet_ = inr walletSecretKey ->
  Keypair_fromSecretKey walletSecretKey = inl rejection ->
  let rt := transferTokens tokenAddress to amount wallet_ s in
  let rb := burnTokensFromUser tokenAddress wallet_ amount s in
  fst rt = Throw (ThrowObject "Invalid secret key provided for transferTokens" 400) /\
  new_events s (snd rt) = [] /\
  fst rb =
    match PublicKey_new tokenAddress with
    | inr _ => Throw (ThrowObject "Invalid secret key provided for burnTokensFromUser" 400)
    | inl e => Throw (ThrowError e)
    end /\
  new_events s (snd rb) = [].
Proof.
  intros Hdec Hkey. destruct s as [self w]. cbv zeta.
  unfold transferTokens, burnTokensFromUser. unfold_eff. simpl_run.
  rewrite Hdec. simpl_run. rewrite Hkey. simpl_run.
  split; [reflexivity|]. split; [now events_done|].
  destruct (PublicKey_new tokenAddress) as [e|mint]; simpl_run.
  - split; [reflexivity|]. now events_done.
  - split; [reflexivity|]. now events_done.
Qed.

(** ** Wallets *)

Section Laws.
Hypothesis laws : SdkLaws sdk.

Lemma keypair_of_seed_valid seed :
  List.length seed = 32%nat ->
  Keypair_fromSecretKey (secretKey (keypair_of_seed seed)) = inr (keypair_of_seed seed).
Proof.
  intros Hseed. unfold Keypair_fromSecretKey, keypair_of_seed. cbn [secretKey].
  pose proof (getPublicKey_length _ laws seed Hseed) as Hpub.
  assert (Hskip : List.skipn 32 (seed ++ getPublicKey seed) = getPublicKey seed)
    by (rewrite <- Hseed; apply drop_app_length).
  assert (Hfirst : List.firstn 32 (seed ++ getPublicKey seed) = seed)
    by (rewrite <- Hseed; apply take_app_length).
  assert (Hhalf : List.firstn 32 (getPublicKey seed) = getPublicKey seed)
    by (apply take_ge; lia).
  rewrite length_app, Hseed, Hpub, Hskip, Hfirst, Hhalf, bytes_eqb_refl.
  reflexivity.
Qed.

Lemma generated_keypair_valid n :
  Keypair_fromSecretKey (secretKey (keypair_of_seed (randomPrivateKey n)))
  = inr (keypair_of_seed (randomPrivateKey n)).
Proof. apply keypair_of_seed_valid. apply (randomPrivateKey_length _ laws). Qed.

Lemma base58_decode_encode source : base58_decode (Base58.encode source) = inr source.
Proof. unfold base58_decode. now rewrite Base58.decode_encode. Qed.

(** C9.  [createWallet] always returns; base58-decoding the returned
    [privateKey] gives a secret key that [Keypair.fromSecretKey] accepts and
    whose public key, base58-encoded, is the returned [address]; the keypair
    is the one made from the next, so far unused, draw of the entropy
    source. *)
Theorem createWallet_returns_a_consistent_fresh_pair (s : Machine) :
  let r := createWallet s in
  let walletBase := keypair_of_seed (randomPrivateKey (draws (env s))) in
  exists created,
    fst r = Ok created /\
    base58_decode (privateKey created) = inr (secretKey walletBase) /\
    Keypair_fromSecretKey (secretKey walletBase) = inr walletBase /\
    toBase58 (publicKey walletBase) = address created /\
    draws (env (snd r)) = S (draws (env s)).
Proof.
  destruct s as [self w]. cbv zeta.
  unfold createWallet. unfold_eff. unfold Keypair_generate. simpl_run.
  eexists. split; [reflexivity|]. cbn [privateKey address].
  split; [apply base58_decode_encode|].
  split; [apply generated_keypair_valid|]. split; reflexivity.
Qed.

End Laws.

(** ** Balances *)

(** The calls to [getMint]. *)
Definition mint_lookups (events : list Event) : list PublicKey :=
  flat_map
    (fun ev =>
       match ev with
       | Called call _ =>
           match call with
           | getMint _ address _ _ => [address]
           | _ => []
           end
       end)
    events.

(** C10.  A call of [getWalletTokenBalance] that returns has asked the
    ledger once, for the token accounts of the given owner under the
    Token-2022 program, and returns one entry per account of the answer, in
    order: the base58 address of the account's mint and the amount decoded
    from the account data, as it is.  No mint is looked up, so nothing is
    divided by a power of ten. *)
Theorem getWalletTokenBalance_returns_raw_amounts
    (address_ : string) (s : Machine) (balances : list TokenBalance) :
  let r := getWalletTokenBalance address_ s in
  fst r = Ok balances ->
  exists owner tokenAccounts,
    PublicKey_new address_ = inr owner /\
    new_events s (snd r) =
      [Called (getTokenAccountsByOwner (connection (this s)) owner TOKEN_2022_PROGRAM_ID)
         (inr tokenAccounts)] /\
    mint_lookups (new_events s (snd r)) = [] /\
    Forall2
      (fun tokenAccount entry =>
         exists accountData,
           AccountLayout_decode (entry_data tokenAccount) = inr accountData /\
           token_address entry = toBase58 (raw_mint accountData) /\
           balance entry = raw_amount accountData)
      tokenAccounts balances.
Proof.
  destruct s as [self w]. cbv zeta.
  unfold getWalletTokenBalance. unfold_eff. simpl_run.
  destruct (PublicKey_new address_) as [e|owner]; simpl_run; [discriminate|].
  on_rpc; [discriminate|].
  match goal with
  | |- context [forEach_decode ?a ?tb ?m] =>
      destruct (forEach_decode_run a tb m) as [Hs Hr];
      destruct (forEach_decode a tb m) as [[result|t'] s']
  end; cbn [fst snd] in *; subst; [|discriminate].
  intros [= ->]. destruct Hr as (entries & -> & Hall). cbn [app] in *.
  exists owner, x. split; [reflexivity|].
  events_done. split; [reflexivity|]. split; [reflexivity|].
  eapply Forall2_impl; [exact Hall|].
  intros account entry (raw & Hraw & ->). exists raw. auto.
Qed.

(** ** The custodial wallet *)

(** The text the service writes for a secret key. *)
Definition wallet_file_text (secretKey : bytes) : string :=
  JSON.stringify (JSON.Obj [("privateKey", Array_from secretKey)]).

(** The keypair a wallet file holds: what the loading branch computes from
    the text of the file. *)
Definition stored_keypair (text : string) : JsError + Keypair :=
  match JSON_parse text with
  | inl e => inl e
  | inr walletData =>
      match get_privateKey walletData with
      | inl e => inl e
      | inr privateKey =>
          match Uint8Array_new privateKey with
          | inl e => inl e
          | inr secret => Keypair_fromSecretKey secret
          end
      end
  end.

Definition wallet_failure (e : JsError) : Thrown :=
  ThrowObject ("Error reading or creating solana wallet: " ++ err_message e) 500.

Definition WALLET_FILE : string := "solWallet.json".

Lemma Array_from_key_object secretKey :
  JSON.Obj [("privateKey", Array_from secretKey)]
  = JSON.key_object (map Byte.to_N secretKey).
Proof. unfold JSON.key_object, Array_from. now rewrite map_map. Qed.

Lemma Uint8Array_new_Array_from secretKey :
  Uint8Array_new (Some (Array_from secretKey)) = inr secretKey.
Proof.
  unfold Array_from. cbn [Uint8Array_new]. f_equal. rewrite map_map.
  induction secretKey as [|b bs IH]; cbn [map element_to_uint8]; auto.
  rewrite ToUint8_to_N. f_equal. exact IH.
Qed.

(** Reading back the text written for a secret key gives that secret key to
    [Keypair.fromSecretKey]. *)
Lemma stored_keypair_written secretKey :
  stored_keypair (wallet_file_text secretKey) = Keypair_fromSecretKey secretKey.
Proof.
  unfold stored_keypair, wallet_file_text, JSON_parse.
  rewrite Array_from_key_object, JSON.parse_stringify_key_object.
  rewrite <- Array_from_key_object.
  change (get_privateKey (JSON.Obj [("privateKey", Array_from secretKey)]))
    with (@inr JsError _ (Some (Array_from secretKey))).
  cbv beta iota. now rewrite Uint8Array_new_Array_from.
Qed.

Lemma _getOrCreateWallet_run (path : string) (w : World) :
  let r := _getOrCreateWallet path w in
  let generated := keypair_of_seed (randomPrivateKey (draws w)) in
  trace (snd r) = trace w /\
  ledger (snd r) = ledger w /\
  match fs w !! path with
  | Some text =>
      fs (snd r) = fs w /\
      draws (snd r) = draws w /\
      fst r = match stored_keypair text with
              | inr loaded => Ok loaded
              | inl e => Throw (wallet_failure e)
              end
  | None =>
      draws (snd r) = S (draws w) /\
      if fs_writable w
      then fst r = Ok generated /\
           fs (snd r) = <[path := wallet_file_text (secretKey generated)]> (fs w)
      else fs (snd r) = fs w /\ exists e, fst r = Throw (wallet_failure e)
  end.
Proof.
  cbv zeta. unfold _getOrCreateWallet, stored_keypair, wallet_file_text.
  unfold try_catch, bind, existsSync, readFileSync, writeFileSync, Keypair_generate,
    console_error, console_log, ret, throw.
  destruct (fs w !! path) as [text|] eqn:Hfile.
  - rewrite bool_decide_true by eauto. rewrite Hfile.
    destruct (JSON_parse text) as [e|walletData]; cbn; [auto|].
    destruct (get_privateKey walletData) as [e|privateKey]; cbn; [auto|].
    destruct (Uint8Array_new privateKey) as [e|secret]; cbn; [auto|].
    destruct (Keypair_fromSecretKey secret) as [e|loaded]; cbn; auto.
  - rewrite bool_decide_false by (intros [? ?]; discriminate).
    cbn [fst snd fs fs_writable draws ledger trace console].
    destruct (fs_writable w); cbn; [auto|].
    repeat split. now exists (mkError "Error" "EACCES: permission denied").
Qed.

Lemma constructor_run (w : World) :
  constructor w =
  match _getOrCreateWallet WALLET_FILE w with
  | (Ok loaded, w') =>
      (Ok (mkService (mkConnection (clusterApiUrl "devnet") confirmed) WALLET_FILE
             false loaded), w')
  | (Throw t, w') => (Throw t, w')
  end.
Proof. reflexivity. Qed.

(** What a construction that yields a service has done. *)
Lemma constructor_outcome (w : World) (service : SolanaConnectionService) :
  let r := constructor w in
  fst r = Ok service ->
  match fs w !! WALLET_FILE with
  | None =>
      wallet service = keypair_of_seed (randomPrivateKey (draws w)) /\
      draws (snd r) = S (draws w) /\
      fs (snd r) = <[WALLET_FILE := wallet_file_text (secretKey (wallet service))]> (fs w)
  | Some text =>
      stored_keypair text = inr (wallet service) /\
      draws (snd r) = draws w /\
      fs (snd r) = fs w
  end.
Proof.
  cbv zeta. rewrite constructor_run.
  pose proof (_getOrCreateWallet_run WALLET_FILE w) as (_ & _ & Hrun). cbv zeta in Hrun.
  destruct (_getOrCreateWallet WALLET_FILE w) as [[loaded|t] w'];
    cbn [fst snd] in *; [|discriminate].
  intros [= <-]. cbn [wallet].
  destruct (fs w !! WALLET_FILE) as [text|].
  - destruct Hrun as (Hfs & Hd & Hr). repeat split; auto.
    destruct (stored_keypair text); congruence.
  - destruct Hrun as (Hd & Hr). destruct (fs_writable w).
    + destruct Hr as [[= <-] Hfs]. auto.
    + destruct Hr as (_ & e & He). discriminate He.
Qed.

(** A construction that finds a file holding a keypair loads it. *)
Lemma constructor_reload (w : World) (text : string) (held : Keypair) :
  fs w !! WALLET_FILE = Some text ->
  stored_keypair text = inr held ->
  let r := constructor w in
  exists service,
    fst r = Ok service /\
    wallet service = held /\
    draws (snd r) = draws w /\
    fs (snd r) = fs w.
Proof.
  intros Hfile Hstored. cbv zeta. rewrite constructor_run.
  pose proof (_getOrCreateWallet_run WALLET_FILE w) as (_ & _ & Hrun).
  cbv zeta in Hrun. rewrite Hfile, Hstored in Hrun.
  destruct Hrun as (Hfs & Hd & Hr).
  destruct (_getOrCreateWallet WALLET_FILE w) as [[loaded|t] w'];
    cbn [fst snd] in *; [|discriminate].
  injection Hr as ->. eexists. repeat split; auto.
Qed.

Section WalletLaws.
Hypothesis laws : SdkLaws sdk.


(** C4.  The file a construction writes is the JSON text of an object whose
    [privateKey] member is the array of the bytes of the wallet's secret
    key -- parsing the text gives that object back -- and a construction that
    finds this text in the file yields a wallet with the same secret key. *)
Theorem wallet_file_round_trip (w : World) (service : SolanaConnectionService) :
  let r := constructor w in
  let written :=
    JSON.Obj
      [("privateKey",
        JSON.Arr (map (fun b => JSON.Num (Z.of_N (Byte.to_N b)))
                    (secretKey (wallet service))))] in
  fs w !! WALLET_FILE = None ->
  fst r = Ok service ->
  fs (snd r) !! WALLET_FILE = Some (JSON.stringify written) /\
  JSON.parse (JSON.stringify written) = Some written /\
  forall later : World,
    fs later !! WALLET_FILE = Some (JSON.stringify written) ->
    exists service2,
      fst (constructor later) = Ok service2 /\
      secretKey (wallet service2) = secretKey (wallet service).
Proof.
  cbv zeta. intros Habsent Hok.
  pose proof (constructor_outcome w service Hok) as Hout. cbv zeta in Hout.
  rewrite Habsent in Hout. destruct Hout as (Hgen & _ & Hfs).
  fold (Array_from (secretKey (wallet service))).
  split; [rewrite Hfs; apply lookup_insert_eq|].
  split.
  - rewrite Array_from_key_object. apply JSON.parse_stringify_key_object.
  - intros later Hfile.
    destruct (constructor_reload later _ (wallet service) Hfile)
      as (service2 & Hok2 & Hsame & _).
    + fold (wallet_file_text (secretKey (wallet service))).
      rewrite stored_keypair_written, Hgen. now apply generated_keypair_valid.
    + exists service2. now rewrite Hsame.
Qed.

End WalletLaws.

(** ** What the operations leave alone *)

(** Splitting on the next library function whose answer decides the run. *)
Ltac split_next :=
  match goal with
  | |- context [base58_decode ?a] =>
      destruct (base58_decode a) as [?e|?decoded] eqn:?
  | |- context [PublicKey_new ?a] =>
      destruct (PublicKey_new a) as [?e|?key] eqn:?
  | |- context [Keypair_fromSecretKey ?a] =>
      destruct (Keypair_fromSecretKey a) as [?e|?pair] eqn:?
  | |- context [rpc ?X ?c ?before] =>
      destruct (rpc X c before) as [[?e|?x] ?l] eqn:?
  end;
  simpl_run.

Ltac run_all := simpl_run; repeat split_next.

(** X1.  [constructor] never calls the ledger. *)
Theorem constructor_makes_no_ledger_call (w : World) :
  trace (snd (constructor w)) = trace w /\
  ledger (snd (constructor w)) = ledger w.
Proof.
  rewrite constructor_run.
  pose proof (_getOrCreateWallet_run WALLET_FILE w) as (Htrace & Hledger & _).
  cbv zeta in *.
  destruct (_getOrCreateWallet WALLET_FILE w) as [[loaded|t] w']; auto.
Qed.

(** The entropy an operation consumes: one draw for the two operations that
    generate a keypair. *)
Definition draws_of (op : Operation) : nat :=
  match op with
  | Op_createWallet | Op_deployTokenContract _ _ _ => 1
  | _ => 0
  end.

Ltac on_forEach :=
  match goal with
  | |- context [forEach_decode ?a ?tb ?m] =>
      let Hs := fresh "Hs" in
      let Hr := fresh "Hr" in
      destruct (forEach_decode_run a tb m) as [Hs Hr];
      destruct (forEach_decode a tb m) as [[?result|?t] ?s'];
      cbn [fst snd] in Hs, Hr; subst; simpl_run
  end.

(** X2.  No public operation reads or writes the file system: the wallet file is
    touched at construction only.  Entropy is consumed by [createWallet] and
    [deployTokenContract], one draw per call, and by no other operation. *)
Theorem operations_leave_the_files_alone (op : Operation) (s : Machine) :
  let s' := snd (perform op s) in
  fs (env s') = fs (env s) /\
  fs_writable (env s') = fs_writable (env s) /\
  draws (env s') = (draws (env s) + draws_of op)%nat.
Proof.
  destruct s as [self w].
  destruct op as [ | tokenName tokenSymbol image | | tokenAddress | | tokenAddress toAddress amount
                 | tokenAddress wallet_ amount | address_ | tokenAddress to amount wallet_ ];
    cbn [perform draws_of]; cbv zeta; rewrite ?Nat.add_0_r, ?Nat.add_1_r.
  - unfold createWallet. unfold_eff. unfold Keypair_generate. simpl_run. auto.
  - unfold deployTokenContract. unfold_eff. unfold Keypair_generate.
    cbn [md_additionalMetadata]. run_all; auto.
  - unfold getVaultWalletAddress. unfold_eff. simpl_run. auto.
  - unfold getTokenInstanceAndDecimals. unfold_eff. run_all; auto.
  - unfold getSolBalance. unfold_eff. run_all; auto.
  - unfold mintTokensToUser. unfold_eff. run_all; auto.
  - unfold burnTokensFromUser. unfold_eff. run_all; auto.
  - unfold getWalletTokenBalance. unfold_eff. run_all; auto.
    on_forEach; auto.
  - unfold transferTokens. unfold_eff. run_all; auto.
Qed.

(** ** Who pays, under which program, over which connection *)

Definition connection_of (ev : Event) : Connection :=
  match ev with
  | Called call _ =>
      match call with
      | getMinimumBalanceForRentExemption conn _
      | sendAndConfirmTransaction conn _ _
      | getMint conn _ _ _
      | getOrCreateAssociatedTokenAccount conn _ _ _ _ _ _ _
      | getBalance conn _
      | mintTo conn _ _ _ _ _ _ _ _
      | burn conn _ _ _ _ _ _ _ _
      | transfer conn _ _ _ _ _ _ _ _
      | confirmTransaction conn _ _
      | getTokenAccountsByOwner conn _ _ => conn
      end
  end.

(** The [payer] argument of the calls that have one. *)
Definition payer_of (ev : Event) : option Keypair :=
  match ev with
  | Called call _ =>
      match call with
      | getOrCreateAssociatedTokenAccount _ payer _ _ _ _ _ _
      | mintTo _ payer _ _ _ _ _ _ _
      | burn _ payer _ _ _ _ _ _ _
      | transfer _ payer _ _ _ _ _ _ _ => Some payer
      | _ => None
      end
  end.

(** The [programId] argument of the calls that have one. *)
Definition program_of (ev : Event) : option PublicKey :=
  match ev with
  | Called call _ =>
      match call with
      | getMint _ _ _ programId
      | getOrCreateAssociatedTokenAccount _ _ _ _ _ _ _ programId
      | mintTo _ _ _ _ _ _ _ _ programId
      | burn _ _ _ _ _ _ _ _ programId
      | transfer _ _ _ _ _ _ _ _ programId
      | getTokenAccountsByOwner _ _ programId => Some programId
      | _ => None
      end
  end.

Definition by_the_vault (self : SolanaConnectionService) (ev : Event) : Prop :=
  connection_of ev = connection self /\
  match payer_of ev with
  | Some payer => payer = wallet self
  | None => True
  end /\
  match program_of ev with
  | Some programId => programId = TOKEN_2022_PROGRAM_ID
  | None => True
  end.

Ltac all_events := repeat (constructor; [repeat split; reflexivity|]); try constructor.

(** X3.  Every call an operation makes goes over the service's own connection;
    wherever a call names a payer it is the custodial wallet, never the
    user's, and wherever it names a token program it is Token-2022. *)
Theorem every_call_is_the_vaults_under_token_2022 (op : Operation) (s : Machine) :
  Forall (by_the_vault (this s)) (new_events s (snd (perform op s))).
Proof.
  destruct s as [self w]. unfold by_the_vault.
  destruct op as [ | tokenName tokenSymbol image | | tokenAddress | | tokenAddress toAddress amount
                 | tokenAddress wallet_ amount | address_ | tokenAddress to amount wallet_ ];
    cbn [perform this].
  - unfold createWallet. unfold_eff. unfold Keypair_generate. simpl_run.
    events_done. constructor.
  - pose proof (deployTokenContract_run tokenName tokenSymbol image (mkMachine self w))
      as [_ Hrun].
    cbv zeta in Hrun. unfold forget. cbn [fst snd this env] in *.
    destruct (rpc Z _ _) as [[e|lamports] l].
    + destruct Hrun as [_ ->]. all_events.
    + destruct (rpc string _ _) as [[e|signature] l'];
        destruct Hrun as [_ ->]; all_events.
  - unfold getVaultWalletAddress. unfold_eff. simpl_run. events_done. constructor.
  - unfold getTokenInstanceAndDecimals. unfold_eff. run_all; events_done; all_events.
  - unfold getSolBalance. unfold_eff. run_all; events_done; all_events.
  - unfold mintTokensToUser. unfold_eff. run_all; events_done; all_events.
  - unfold burnTokensFromUser. unfold_eff. run_all; events_done; all_events.
  - unfold getWalletTokenBalance. unfold_eff. run_all; try (events_done; all_events).
    on_forEach; events_done; all_events.
  - unfold transferTokens. unfold_eff. run_all; events_done; all_events.
Qed.

(** ** Queries *)

(** The calls that create an account or submit a transaction. *)
Definition changes_chain (ev : Event) : bool :=
  match ev with
  | Called call _ =>
      match call with
      | sendAndConfirmTransaction _ _ _
      | getOrCreateAssociatedTokenAccount _ _ _ _ _ _ _ _
      | mintTo _ _ _ _ _ _ _ _ _
      | burn _ _ _ _ _ _ _ _ _
      | transfer _ _ _ _ _ _ _ _ _ => true
      | _ => false
      end
  end.

Definition is_query (op : Operation) : bool :=
  match op with
  | Op_createWallet
  | Op_getVaultWalletAddress
  | Op_getTokenInstanceAndDecimals _
  | Op_getSolBalance
  | Op_getWalletTokenBalance _ => true
  | _ => false
  end.

(** X4.  [createWallet] and [getVaultWalletAddress] make no call to the ledger at
    all; [getTokenInstanceAndDecimals], [getSolBalance] and
    [getWalletTokenBalance] make at most one, and it neither creates an
    account nor submits a transaction. *)
Theorem queries_change_nothing_on_chain (op : Operation) (s : Machine) :
  let events := new_events s (snd (perform op s)) in
  match op with
  | Op_createWallet | Op_getVaultWalletAddress => events = []
  | Op_getTokenInstanceAndDecimals _ | Op_getSolBalance | Op_getWalletTokenBalance _ =>
      (List.length events <= 1)%nat /\ existsb changes_chain events = false
  | _ => True
  end.
Proof.
  destruct s as [self w].
  destruct op as [ | tokenName tokenSymbol image | | tokenAddress | | tokenAddress toAddress amount
                 | tokenAddress wallet_ amount | address_ | tokenAddress to amount wallet_ ];
    cbn [perform]; cbv zeta; try exact I.
  - unfold createWallet. unfold_eff. unfold Keypair_generate. simpl_run.
    now events_done.
  - unfold getVaultWalletAddress. unfold_eff. simpl_run. now events_done.
  - unfold getTokenInstanceAndDecimals. unfold_eff. run_all; events_done; cbn; auto.
  - unfold getSolBalance. unfold_eff. run_all; events_done; cbn; auto.
  - unfold getWalletTokenBalance. unfold_eff. run_all; try (events_done; cbn; now auto).
    on_forEach; events_done; cbn; auto.
Qed.

(** ** Arguments that are refused before the ledger is reached *)

(** The arguments an operation hands to the [PublicKey] constructor. *)
Definition address_arguments (op : Operation) : list string :=
  match op with
  | Op_getTokenInstanceAndDecimals token_address => [token_address]
  | Op_mintTokensToUser tokenAddress toAddress _ => [tokenAddress; toAddress]
  | Op_burnTokensFromUser tokenAddress _ _ => [tokenAddress]
  | Op_getWalletTokenBalance address_ => [address_]
  | Op_transferTokens tokenAddress to _ _ => [tokenAddress; to]
  | _ => []
  end.

(** X5.  An operation given an address that the [PublicKey] constructor refuses
    throws without having called the ledger: nothing is created, nothing is
    submitted, not even a query is made. *)
Theorem refused_address_stops_before_the_ledger
    (op : Operation) (s : Machine) (argument : string) (refusal : JsError) :
  In argument (address_arguments op) ->
  PublicKey_new argument = inl refusal ->
  new_events s (snd (perform op s)) = [] /\
  exists t, fst (perform op s) = Some t.
Proof.
  destruct s as [self w].
  destruct op as [ | tokenName tokenSymbol image | | tokenAddress | | tokenAddress toAddress amount
                 | tokenAddress wallet_ amount | address_ | tokenAddress to amount wallet_ ];
    cbn [perform address_arguments In]; intros Hin Hbad;
    try contradiction.
  - destruct Hin as [->|[]].
    unfold getTokenInstanceAndDecimals. unfold_eff. rewrite Hbad. simpl_run.
    split; [now events_done|eauto].
  - unfold mintTokensToUser. unfold_eff.
    destruct Hin as [->|[->|[]]]; rewrite Hbad; run_all;
      (split; [now events_done|eauto]).
  - destruct Hin as [->|[]].
    unfold burnTokensFromUser. unfold_eff. rewrite Hbad. run_all;
      (split; [now events_done|eauto]).
  - destruct Hin as [->|[]].
    unfold getWalletTokenBalance. unfold_eff. rewrite Hbad. simpl_run.
    split; [now events_done|eauto].
  - unfold transferTokens. unfold_eff.
    destruct Hin as [->|[->|[]]]; rewrite Hbad; run_all;
      (split; [now events_done|eauto]).
Qed.

(** X6.  A wallet argument with a character outside the base58 alphabet makes
    [burnTokensFromUser] and [transferTokens] throw the [Error] of bs58
    itself -- not the status-400 object kept for rejected keys -- before any
    call to the ledger. *)
Theorem undecodable_wallet_is_not_a_status_400
    (tokenAddress to wallet_ : string) (amount : Number) (s : Machine)
    (refusal : JsError) :
  base58_decode wallet_ = inl refusal ->
  let rb := burnTokensFromUser tokenAddress wallet_ amount s in
  let rt := transferTokens tokenAddress to amount wallet_ s in
  fst rb = Throw (ThrowError refusal) /\ new_events s (snd rb) = [] /\
  fst rt = Throw (ThrowError refusal) /\ new_events s (snd rt) = [].
Proof.
  intros Hbad. destruct s as [self w]. cbv zeta.
  unfold burnTokensFromUser, transferTokens. unfold_eff. rewrite Hbad. simpl_run.
  split; [reflexivity|]. split; [now events_done|].
  split; [reflexivity|]. now events_done.
Qed.

(** ** What a call that returns has done *)

(** X7.  A [mintTokensToUser] that returns has made four calls, each of which
    succeeded: the recipient's associated token account for the mint was
    obtained (created if needed, the custodial wallet paying), the mint was
    looked up, the scaled amount was minted to that account under the
    custodial wallet's authority, and the signature returned is that of the
    mint transaction, confirmed at [finalized]. *)
Theorem mintTokensToUser_mints_to_the_recipients_account
    (tokenAddress toAddress : string) (amount : Number) (s : Machine) (tx : string) :
  let self := this s in
  let r := mintTokensToUser tokenAddress toAddress amount s in
  fst r = Ok tx ->
  exists mint to tokenAccount mintInfo,
    PublicKey_new tokenAddress = inr mint /\
    PublicKey_new toAddress = inr to /\
    new_events s (snd r) =
    [Called (getOrCreateAssociatedTokenAccount (connection self) (wallet self) mint to
               None None None TOKEN_2022_PROGRAM_ID)
       (inr tokenAccount);
     Called (getMint (connection self) mint None TOKEN_2022_PROGRAM_ID) (inr mintInfo);
     Called (mintTo (connection self) (wallet self) mint (account_address tokenAccount)
               (AsPublicKey (publicKey (wallet self)))
               (number_mul amount
                  (Math_pow (number_of_Z 10) (number_of_Z (mint_decimals mintInfo))))
               [wallet self] None TOKEN_2022_PROGRAM_ID)
       (inr tx);
     Called (confirmTransaction (connection self) tx finalized) (inr tt)].
Proof.
  destruct s as [self w]. cbv zeta. cbn [this].
  unfold mintTokensToUser. unfold_eff. run_all; try discriminate.
  intros [= <-]. match goal with u : unit |- _ => destruct u end.
  do 4 eexists. split; [reflexivity|]. split; [reflexivity|]. now events_done.
Qed.

(** X8.  A [burnTokensFromUser] that returns has burnt the scaled amount from the
    associated token account of the user whose secret key was given: the
    user's keypair is the owner and the only extra signer, the custodial
    wallet pays, and the signature returned is that of the burn, confirmed
    at [finalized]. *)
Theorem burnTokensFromUser_burns_from_the_users_account
    (tokenAddress wallet_ : string) (amount : Number) (s : Machine) (tx : string) :
  let self := this s in
  let r := burnTokensFromUser tokenAddress wallet_ amount s in
  fst r = Ok tx ->
  exists walletSecretKey mint userWallet tokenAccount mintInfo,
    base58_decode wallet_ = inr walletSecretKey /\
    PublicKey_new tokenAddress = inr mint /\
    Keypair_fromSecretKey walletSecretKey = inr userWallet /\
    new_events s (snd r) =
    [Called (getOrCreateAssociatedTokenAccount (connection self) (wallet self) mint
               (publicKey userWallet) None None None TOKEN_2022_PROGRAM_ID)
       (inr tokenAccount);
     Called (getMint (connection self) mint None TOKEN_2022_PROGRAM_ID) (inr mintInfo);
     Called (burn (connection self) (wallet self) (account_address tokenAccount) mint
               (AsSigner userWallet)
               (number_mul amount
                  (Math_pow (number_of_Z 10) (number_of_Z (mint_decimals mintInfo))))
               [userWallet] (Some tt) TOKEN_2022_PROGRAM_ID)
       (inr tx);
     Called (confirmTransaction (connection self) tx finalized) (inr tt)].
Proof.
  destruct s as [self w]. cbv zeta. cbn [this].
  unfold burnTokensFromUser. unfold_eff. run_all; try discriminate.
  intros [= <-]. match goal with u : unit |- _ => destruct u end.
  do 5 eexists. split; [reflexivity|]. split; [reflexivity|]. split; [eassumption|].
  now events_done.
Qed.

(** X9.  A [transferTokens] that returns has obtained the sender's associated
    token account first and the recipient's second (both created if needed,
    the custodial wallet paying), and has moved the scaled amount from the
    first to the second with the sender's public key as owner and the
    sender's keypair as signer; the signature returned is that of the
    transfer, confirmed at [finalized]. *)
Theorem transferTokens_moves_between_the_two_accounts
    (tokenAddress to wallet_ : string) (amount : Number) (s : Machine) (tx : string) :
  let self := this s in
  let r := transferTokens tokenAddress to amount wallet_ s in
  fst r = Ok tx ->
  exists walletSecretKey userWallet mint toPublicKey fromTokenAccount toTokenAccount
         mintInfo,
    base58_decode wallet_ = inr walletSecretKey /\
    Keypair_fromSecretKey walletSecretKey = inr userWallet /\
    PublicKey_new tokenAddress = inr mint /\
    PublicKey_new to = inr toPublicKey /\
    new_events s (snd r) =
    [Called (getOrCreateAssociatedTokenAccount (connection self) (wallet self) mint
               (publicKey userWallet) None None None TOKEN_2022_PROGRAM_ID)
       (inr fromTokenAccount);
     Called (getOrCreateAssociatedTokenAccount (connection self) (wallet self) mint
               toPublicKey None None None TOKEN_2022_PROGRAM_ID)
       (inr toTokenAccount);
     Called (getMint (connection self) mint None TOKEN_2022_PROGRAM_ID) (inr mintInfo);
     Called (transfer (connection self) (wallet self)
               (account_address fromTokenAccount) (account_address toTokenAccount)
               (AsPublicKey (publicKey userWallet))
               (number_mul amount
                  (Math_pow (number_of_Z 10) (number_of_Z (mint_decimals mintInfo))))
               [userWallet] None TOKEN_2022_PROGRAM_ID)
       (inr tx);
     Called (confirmTransaction (connection self) tx finalized) (inr tt)].
Proof.
  destruct s as [self w]. cbv zeta. cbn [this].
  unfold transferTokens. unfold_eff. run_all; try discriminate.
  intros [= <-]. match goal with u : unit |- _ => destruct u end.
  do 7 eexists. split; [reflexivity|]. split; [eassumption|].
  split; [reflexivity|]. split; [reflexivity|]. now events_done.
Qed.

(** ** Submitted but not confirmed *)

(** The signatures of the transactions that [mintTo], [burn] and [transfer]
    got submitted. *)
Definition submitted_signatures (events : list Event) : list string :=
  flat_map
    (fun ev =>
       match ev with
       | Called call outcome =>
           match call in SdkCall X return (JsError + X) -> list string with
           | mintTo _ _ _ _ _ _ _ _ _
           | burn _ _ _ _ _ _ _ _ _
           | transfer _ _ _ _ _ _ _ _ _ =>
               fun outcome =>
                 match outcome with
                 | inr signature => [signature]
                 | inl _ => []
                 end
           | _ => fun _ => []
           end outcome
       end)
    events.



(** ** The console *)

(** What a catch block of the service adds to the console: nothing when the
    call returned, one line -- the label and the error -- when it threw. *)
Definition logs_its_error {A} (label : string) (s : Machine) (r : Result A * Machine)
  : Prop :=
  console (env (snd r)) =
  (console (env s) ++
   match fst r with
   | Ok _ => []
   | Throw t => [[label; thrown_message t]]
   end)%list.

Definition logs_nothing {A} (s : Machine) (r : Result A * Machine) : Prop :=
  console (env (snd r)) = console (env s).

(** X11.  The four operations whose whole body is inside [try] log every error
    they throw, once, and nothing else.  [transferTokens] decodes and checks
    the wallet argument before its [try]: a wallet it refuses is thrown
    without a line on the console, every later error is logged.
    [getWalletTokenBalance] has no [catch] and never logs;
    [deployTokenContract] logs only when it returns. *)
Theorem errors_are_logged_where_they_are_caught
    (tokenAddress toAddress wallet_ : string) (amount : Number) (s : Machine) :
  logs_its_error "Error loading contract:" s (getTokenInstanceAndDecimals tokenAddress s) /\
  logs_its_error "Error getting SOL balance:" s (getSolBalance s) /\
  logs_its_error "Error minting tokens:" s
    (mintTokensToUser tokenAddress toAddress amount s) /\
  logs_its_error "Error burning tokens:" s
    (burnTokensFromUser tokenAddress wallet_ amount s) /\
  match base58_decode wallet_ with
  | inr walletSecretKey =>
      match Keypair_fromSecretKey walletSecretKey with
      | inr _ =>
          logs_its_error "Error transferring tokens:" s
            (transferTokens tokenAddress toAddress amount wallet_ s)
      | inl _ => logs_nothing s (transferTokens tokenAddress toAddress amount wallet_ s)
      end
  | inl _ => logs_nothing s (transferTokens tokenAddress toAddress amount wallet_ s)
  end /\
  logs_nothing s (getWalletTokenBalance tokenAddress s) /\
  forall tokenName tokenSymbol image,
    match fst (deployTokenContract tokenName tokenSymbol image s) with
    | Ok _ => True
    | Throw _ => logs_nothing s (deployTokenContract tokenName tokenSymbol image s)
    end.
Proof.
  destruct s as [self w]. unfold logs_its_error, logs_nothing.
  repeat split.
  - unfold getTokenInstanceAndDecimals. unfold_eff. run_all;
      rewrite ?app_nil_r; reflexivity.
  - unfold getSolBalance. unfold_eff. run_all; rewrite ?app_nil_r; reflexivity.
  - unfold mintTokensToUser. unfold_eff. run_all; rewrite ?app_nil_r; reflexivity.
  - unfold burnTokensFromUser. unfold_eff. run_all; rewrite ?app_nil_r; reflexivity.
  - unfold transferTokens. unfold_eff. run_all; rewrite ?app_nil_r; reflexivity.
  - unfold getWalletTokenBalance. unfold_eff. run_all; try reflexivity.
    on_forEach; reflexivity.
  - intros tokenName tokenSymbol image.
    unfold deployTokenContract. unfold_eff. unfold Keypair_generate.
    cbn [md_additionalMetadata]. run_all; auto.
Qed.

(** ** Addresses handed out and taken back *)

Lemma PublicKey_new_toBase58 (key : PublicKey) :
  List.length (pk_bytes key) = 32%nat -> PublicKey_new (toBase58 key) = inr key.
Proof.
  intros Hlen. unfold PublicKey_new, toBase58.
  rewrite base58_decode_encode, Hlen. now destruct key.
Qed.

Lemma Keypair_fromSecretKey_accepted secret (pair : Keypair) :
  Keypair_fromSecretKey secret = inr pair ->
  List.length secret = 64%nat /\
  secretKey pair = secret /\
  pk_bytes (publicKey pair) = List.skipn 32 secret.
Proof.
  unfold Keypair_fromSecretKey.
  destruct (Nat.eqb_spec (List.length secret) 64) as [Hlen|]; cbn [negb]; [|discriminate].
  destruct (bytes_eqb _ _); [|discriminate].
  intros [= <-]. auto.
Qed.

Section Handing.
Hypothesis laws : SdkLaws sdk.

Lemma generated_public_key_length n :
  List.length (pk_bytes (publicKey (keypair_of_seed (randomPrivateKey n)))) = 32%nat.
Proof.
  cbn. apply (getPublicKey_length _ laws). apply (randomPrivateKey_length _ laws).
Qed.

(** X12.  The address [deployTokenContract] returns designates, for the
    [PublicKey] constructor of every other operation, the very mint account
    the deployment created. *)
Theorem deployed_address_designates_the_mint
    (tokenName tokenSymbol image : string) (s : Machine) (returned : string) :
  fst (deployTokenContract tokenName tokenSymbol image s) = Ok returned ->
  PublicKey_new returned
  = inr (publicKey (keypair_of_seed (randomPrivateKey (draws (env s))))).
Proof.
  intros Hret.
  destruct (deployTokenContract_run tokenName tokenSymbol image s) as [_ Hrun].
  cbv zeta in Hrun.
  destruct (rpc Z _ _) as [[e|lamports] l]; [destruct Hrun; congruence|].
  destruct (rpc string _ _) as [[e|signature] l']; destruct Hrun as [Hr _];
    [congruence|].
  rewrite Hr in Hret. injection Hret as <-.
  apply PublicKey_new_toBase58, generated_public_key_length.
Qed.

(** X13.  The [privateKey] string of a wallet made by [createWallet] is accepted as
    the wallet argument of [transferTokens] and [burnTokensFromUser]: neither
    answers it with the status-400 object, and with token and recipient
    addresses that are public keys the first thing either does is to ask for
    the associated token account of the owner whose base58 address
    [createWallet] returned. *)
Theorem created_wallet_is_accepted
    (s : Machine) (created : CreatedWallet)
    (tokenAddress to : string) (amount : Number) (s2 : Machine) :
  fst (createWallet s) = Ok created ->
  let self := this s2 in
  let rt := transferTokens tokenAddress to amount (privateKey created) s2 in
  let rb := burnTokensFromUser tokenAddress (privateKey created) amount s2 in
  fst rt <> Throw (ThrowObject "Invalid secret key provided for transferTokens" 400) /\
  fst rb <> Throw (ThrowObject "Invalid secret key provided for burnTokensFromUser" 400) /\
  exists owner,
    toBase58 owner = address created /\
    forall mint toPublicKey,
      PublicKey_new tokenAddress = inr mint ->
      PublicKey_new to = inr toPublicKey ->
      let first :=
        getOrCreateAssociatedTokenAccount (connection self) (wallet self) mint owner
          None None None TOKEN_2022_PROGRAM_ID in
      (exists outcome rest, new_events s2 (snd rt) = Called first outcome :: rest) /\
      (exists outcome rest, new_events s2 (snd rb) = Called first outcome :: rest).
Proof.
  destruct s as [self0 w0]. destruct s2 as [self w].
  unfold createWallet at 1. unfold_eff. unfold Keypair_generate. simpl_run.
  intros [= <-]. cbv zeta. cbn [privateKey address this].
  set (walletBase := keypair_of_seed (randomPrivateKey (draws w0))).
  assert (Hdec : base58_decode (Base58.encode (secretKey walletBase))
                 = inr (secretKey walletBase)) by apply base58_decode_encode.
  assert (Hkey : Keypair_fromSecretKey (secretKey walletBase) = inr walletBase)
    by (apply generated_keypair_valid; exact laws).
  unfold walletBase, keypair_of_seed in Hdec, Hkey. cbn [secretKey] in Hdec, Hkey.
  unfold transferTokens, burnTokensFromUser. unfold_eff. rewrite Hdec. simpl_run.
  rewrite Hkey. simpl_run.
  split; [|split].
  - run_all; discriminate.
  - run_all; discriminate.
  - exists (publicKey walletBase). split; [reflexivity|].
    intros mint toPublicKey Hmint Hto. rewrite Hmint, Hto. simpl_run.
    split; run_all; events_done; eauto.
Qed.

(** X14.  The address [getVaultWalletAddress] returns for a service that
    [constructor] yielded designates, for the [PublicKey] constructor, the
    public key of the custodial wallet; the call makes no call to the ledger
    and changes nothing. *)
Theorem vault_address_designates_the_wallet
    (w : World) (service : SolanaConnectionService) (later : World) :
  fst (constructor w) = Ok service ->
  let s := mkMachine service later in
  exists address_,
    getVaultWalletAddress s = (Ok address_, s) /\
    PublicKey_new address_ = inr (publicKey (wallet service)).
Proof.
  intros Hok. cbv zeta. eexists. split; [reflexivity|].
  apply PublicKey_new_toBase58.
  pose proof (constructor_outcome w service Hok) as Hout. cbv zeta in Hout.
  destruct (fs w !! WALLET_FILE) as [text|].
  - destruct Hout as (Hstored & _). unfold stored_keypair in Hstored.
    destruct (JSON_parse text) as [|walletData]; [discriminate|].
    destruct (get_privateKey walletData) as [|privateKey]; [discriminate|].
    destruct (Uint8Array_new privateKey) as [|secret]; [discriminate|].
    apply Keypair_fromSecretKey_accepted in Hstored as (Hlen & _ & ->).
    rewrite length_drop, Hlen. reflexivity.
  - destruct Hout as (-> & _). apply generated_public_key_length.
Qed.

End Handing.

(** ** Balances that cannot be read *)



(** ** What the two ledger queries hand back *)

Lemma index_from_nth l : forall i c d,
  Base58.index_from i c l = Some d ->
  (i <= d)%N /\
  (N.to_nat (d - i) < List.length l)%nat /\
  nth (N.to_nat (d - i)) l Base58.LEADER = c.
Proof.
  induction l as [|x l IH]; intros i c d; cbn [Base58.index_from]; [discriminate|].
  destruct (Ascii.eqb_spec c x) as [->|Hne].
  - intros [= <-]. rewrite N.sub_diag. cbn. repeat split; lia.
  - intros Hd. apply IH in Hd as (Hle & Hlt & Hnth).
    replace (N.to_nat (d - i)) with (S (N.to_nat (d - N.succ i))) by lia.
    cbn [nth List.length]. repeat split; [lia|lia|exact Hnth].
Qed.

Lemma char_of_digit_of_char c d :
  Base58.digit_of_char c = Some d -> Base58.char_of_digit d = c /\ (d < 58)%N.
Proof.
  unfold Base58.digit_of_char, Base58.char_of_digit. intros Hd.
  apply index_from_nth in Hd as (_ & Hlt & Hnth).
  rewrite N.sub_0_r in *. split; [exact Hnth|].
  change (List.length (list_ascii_of_string Base58.ALPHABET)) with 58%nat in Hlt. lia.
Qed.

Lemma to_N_byte_of_N d : (d < 256)%N -> Byte.to_N (byte_of_N d) = d.
Proof.
  intros Hd. unfold byte_of_N. rewrite N.mod_small by exact Hd.
  pose proof (Byte.to_of_N_option_map d) as Hopt.
  destruct (Byte.of_N d) as [b|] eqn:Hb.
  - now apply Byte.to_of_N.
  - cbn in Hopt. destruct (N.leb_spec d 255); [discriminate|lia].
Qed.

(** bs58 the other way round: what decodes, encodes back to itself. *)
Lemma base58_encode_decode source decoded :
  Base58.decodeUnsafe source = Some decoded -> Base58.encode decoded = source.
Proof.
  unfold Base58.decodeUnsafe, Base58.encode.
  destruct (mapM Base58.digit_of_char (list_ascii_of_string source)) as [b58|] eqn:Hmap;
    [|discriminate].
  intros [= <-].
  apply mapM_Some_1 in Hmap.
  assert (Hchars : map Base58.char_of_digit b58 = list_ascii_of_string source /\
                   Forall (fun d => (d < 58)%N) b58).
  { induction Hmap as [|c d cs ds Hcd _ [IH1 IH2]]; [split; constructor|].
    apply char_of_digit_of_char in Hcd as [Hc Hd].
    split; [cbn [map]; now rewrite Hc, IH1|now constructor]. }
  destruct Hchars as [Hchars Hlt].
  set (v := Radix.of_digits 58 0 b58).
  assert (H256 : map Byte.to_N (map byte_of_N (Radix.to_digits 256 v))
                 = Radix.to_digits 256 v).
  { pose proof (Radix.to_digits_lt 256 ltac:(lia) v) as Hb.
    induction Hb as [|d ds Hd _ IH]; cbn [map]; auto.
    now rewrite to_N_byte_of_N, IH. }
  rewrite map_app, map_repeat, H256. change (Byte.to_N x00) with 0%N.
  rewrite Base58.count_zeros_repeat by (apply Radix.to_digits_head_nonzero; lia).
  rewrite Base58.of_digits_repeat_0, Radix.of_to_digits by lia.
  unfold v. rewrite <- (Radix.of_digits_strip 58 b58).
  rewrite Radix.to_of_digits.
  - change Base58.LEADER with (Base58.char_of_digit 0).
    rewrite <- map_repeat, <- map_app, Radix.count_strip_zeros, Hchars.
    apply string_of_list_ascii_of_string.
  - lia.
  - apply Radix.strip_zeros_head.
  - clear -Hlt. induction Hlt as [|d ds Hd Hds IH]; cbn; auto.
    destruct d; auto.
Qed.

Lemma toBase58_PublicKey_new text key :
  PublicKey_new text = inr key -> toBase58 key = text.
Proof.
  unfold PublicKey_new, base58_decode, toBase58.
  destruct (Base58.decodeUnsafe text) as [decoded|] eqn:Hdec; [|discriminate].
  destruct (Nat.eqb _ _); [|discriminate].
  intros [= <-]. now apply base58_encode_decode.
Qed.

(** X16.  [getTokenInstanceAndDecimals] and [getSolBalance] hand back what the
    ledger answered to one query: the first returns the decimals [getMint]
    reported, at commitment [confirmed] and under Token-2022, for a contract
    whose base58 form is the address it was given; the second returns the
    balance [getBalance] reported for the custodial wallet's public key. *)
Theorem queries_return_the_ledgers_answer
    (token_address : string) (s : Machine) :
  let self := this s in
  let rt := getTokenInstanceAndDecimals token_address s in
  let rb := getSolBalance s in
  match fst rt with
  | Ok instance =>
      toBase58 (contract instance) = token_address /\
      exists mintInfo,
        decimals instance = mint_decimals mintInfo /\
        new_events s (snd rt) =
        [Called (getMint (connection self) (contract instance) (Some confirmed)
                   TOKEN_2022_PROGRAM_ID)
           (inr mintInfo)]
  | Throw _ => True
  end /\
  match fst rb with
  | Ok lamports =>
      new_events s (snd rb) =
      [Called (getBalance (connection self) (publicKey (wallet self))) (inr lamports)]
  | Throw _ => True
  end.
Proof.
  destruct s as [self w]. cbv zeta. cbn [this]. split.
  - unfold getTokenInstanceAndDecimals. unfold_eff. run_all; auto.
    cbn [contract decimals]. split; [now apply toBase58_PublicKey_new|].
    eexists. split; [reflexivity|]. now events_done.
  - unfold getSolBalance. unfold_eff. run_all; auto. now events_done.
Qed.

(** ** A wallet file whose numbers are not bytes *)



End Properties.

(** * The statements at work on the mock ledger *)

#[local] Existing Instance Mock.numbers.
#[local] Existing Instance Mock.sdk.

Definition ADDRESS_2 : string := "11111111111111111111111111111112".
Definition ADDRESS_3 : string := "11111111111111111111111111111113".

Definition mock_machine : @Machine Mock.numbers Mock.sdk := Mock.machine true.
Definition fresh_world : @World Mock.numbers Mock.sdk := Mock.world true ∅.

Definition first_keypair : Keypair :=
  @keypair_of_seed Mock.numbers Mock.sdk (Mock.seed_of 0).

Definition first_service : SolanaConnectionService :=
  mkService (mkConnection (clusterApiUrl "devnet") confirmed) WALLET_FILE false
    first_keypair.

Definition mock_deploy :=
  @deployTokenContract Mock.numbers Mock.sdk "SuperCoin" "SC" "https://sc.example/sc.png".

(** C1 on the mock: five instructions, one transaction. *)
Example deploy_sends_five :
  map (fun tx => map instruction_kind (instructions tx))
    (transactions_sent (new_events mock_machine (snd (mock_deploy mock_machine))))
  = [five_kinds].
Proof. vm_compute. reflexivity. Qed.

(** C5 on the mock: 5 tokens of a mint with 9 decimals. *)
Example mint_passes_scaled_amount :
  amounts_passed
    (new_events mock_machine
       (snd (@mintTokensToUser Mock.numbers Mock.sdk ADDRESS_2 ADDRESS_3 5%Z mock_machine)))
  = [5000000000%Z].
Proof. vm_compute. reflexivity. Qed.

(** Witness of C6: the deployment on the mock returns the address of the
    first keypair drawn. *)
Lemma deployTokenContract_registers_the_token_witness :
  let r := mock_deploy mock_machine in
  fst r = Ok "4vJ9JU1bJJE96FWSJKvHsmmFADCg4gpZQff4P3bkLKi" /\
  "4vJ9JU1bJJE96FWSJKvHsmmFADCg4gpZQff4P3bkLKi" = toBase58 (publicKey first_keypair) /\
  draws (env (snd r)) = 1%nat /\
  List.length (new_events mock_machine (snd r)) = 2%nat.
Proof.
  cbv zeta.
  assert (H : fst (mock_deploy mock_machine)
              = Ok "4vJ9JU1bJJE96FWSJKvHsmmFADCg4gpZQff4P3bkLKi")
    by (vm_compute; reflexivity).
  destruct (deployTokenContract_registers_the_token
              "SuperCoin" "SC" "https://sc.example/sc.png" mock_machine _ H)
    as (Haddr & Hdraws & lamports & signature & Hevents).
  split; [exact H|]. split; [exact Haddr|]. split; [exact Hdraws|].
  unfold mock_deploy. rewrite Hevents. reflexivity.
Defined.



(** Counterexample to C8 as stated: the wallet argument ["1"] decodes to one
    zero byte, which is no secret key, and [burnTokensFromUser] on a token
    address that is not base58 throws the [Error] of the [PublicKey]
    constructor, not an object with status 400. *)
Lemma burnTokensFromUser_checks_the_mint_first :
  let r := @burnTokensFromUser Mock.numbers Mock.sdk "0" "1" 5%Z mock_machine in
  base58_decode "1" = inr [x00] /\
  @Keypair_fromSecretKey Mock.numbers Mock.sdk [x00]
    = inl (mkError "Error" "bad secret key size") /\
  fst r = Throw (ThrowError (mkError "Error" "Non-base58 character")) /\
  ~ (exists message, fst r = Throw (ThrowObject message 400)).
Proof.
  cbv zeta. split; [vm_compute; reflexivity|]. split; [vm_compute; reflexivity|].
  split; [vm_compute; reflexivity|].
  intros (message & H). vm_compute in H. discriminate H.
Qed.

(** Witness of C8 as amended: the same wallet argument with a token address
    that is a public key. *)
Lemma rejected_secret_key_stops_before_the_ledger_witness :
  let rt := @transferTokens Mock.numbers Mock.sdk ADDRESS_2 ADDRESS_3 5%Z "1" mock_machine in
  let rb := @burnTokensFromUser Mock.numbers Mock.sdk ADDRESS_2 "1" 5%Z mock_machine in
  base58_decode "1" = inr [x00] /\
  @Keypair_fromSecretKey Mock.numbers Mock.sdk [x00]
    = inl (mkError "Error" "bad secret key size") /\
  fst rt = Throw (ThrowObject "Invalid secret key provided for transferTokens" 400) /\
  new_events mock_machine (snd rt) = [] /\
  fst rb =
    match PublicKey_new ADDRESS_2 with
    | inr _ => Throw (ThrowObject "Invalid secret key provided for burnTokensFromUser" 400)
    | inl e => Throw (ThrowError e)
    end /\
  new_events mock_machine (snd rb) = [].
Proof.
  cbv zeta.
  assert (Hdec : base58_decode "1" = inr [x00]) by (vm_compute; reflexivity).
  assert (Hkey : @Keypair_fromSecretKey Mock.numbers Mock.sdk [x00]
                 = inl (mkError "Error" "bad secret key size"))
    by (vm_compute; reflexivity).
  split; [exact Hdec|]. split; [exact Hkey|].
  exact (rejected_secret_key_stops_before_the_ledger
           ADDRESS_2 ADDRESS_3 "1" 5%Z mock_machine [x00] _ Hdec Hkey).
Defined.

(** Witness of C9 on the mock. *)
Lemma createWallet_returns_a_consistent_fresh_pair_witness :
  SdkLaws Mock.sdk /\
  let r := @createWallet Mock.numbers Mock.sdk mock_machine in
  let walletBase := first_keypair in
  exists created,
    fst r = Ok created /\
    base58_decode (privateKey created) = inr (secretKey walletBase) /\
    @Keypair_fromSecretKey Mock.numbers Mock.sdk (secretKey walletBase) = inr walletBase /\
    toBase58 (publicKey walletBase) = address created /\
    draws (env (snd r)) = 1%nat.
Proof.
  split; [exact Mock.laws|].
  exact (createWallet_returns_a_consistent_fresh_pair Mock.laws mock_machine).
Defined.

(** Witness of C10 on the mock: two token accounts, two raw amounts. *)
Lemma getWalletTokenBalance_returns_raw_amounts_witness :
  let r := @getWalletTokenBalance Mock.numbers Mock.sdk ADDRESS_2 mock_machine in
  let balances :=
    [mkTokenBalance "US517G5965aydkZ46HS38QLi7UQiSojurfbQfKCELFx" 261;
     mkTokenBalance "YMN9Qj5jPNp7j14VPcML1B6xGgcPWVZUGLFU3Mnyfaf" 256] in
  fst r = Ok balances /\
  exists owner tokenAccounts,
    PublicKey_new ADDRESS_2 = inr owner /\
    new_events mock_machine (snd r) =
      [Called (getTokenAccountsByOwner (connection (this mock_machine)) owner
                 TOKEN_2022_PROGRAM_ID)
         (inr tokenAccounts)] /\
    mint_lookups (new_events mock_machine (snd r)) = [] /\
    Forall2
      (fun tokenAccount entry =>
         exists accountData,
           AccountLayout_decode (entry_data tokenAccount) = inr accountData /\
           token_address entry = toBase58 (raw_mint accountData) /\
           balance entry = raw_amount accountData)
      tokenAccounts balances.
Proof.
  cbv zeta.
  match goal with
  | |- ?hyp /\ _ => assert (H : hyp) by (vm_compute; reflexivity)
  end.
  split; [exact H|].
  exact (getWalletTokenBalance_returns_raw_amounts ADDRESS_2 mock_machine _ H).
Defined.


(** Witness of C4 on the mock. *)
Lemma wallet_file_round_trip_witness :
  SdkLaws Mock.sdk /\
  fs fresh_world !! WALLET_FILE = None /\
  let r := constructor fresh_world in
  let written :=
    JSON.Obj
      [("privateKey",
        JSON.Arr (map (fun b => JSON.Num (Z.of_N (Byte.to_N b)))
                    (secretKey (wallet first_service))))] in
  fst r = Ok first_service /\
  fs (snd r) !! WALLET_FILE = Some (JSON.stringify written) /\
  JSON.parse (JSON.stringify written) = Some written /\
  exists service2,
    fst (constructor (snd r)) = Ok service2 /\
    secretKey (wallet service2) = secretKey (wallet first_service).
Proof.
  split; [exact Mock.laws|]. split; [reflexivity|]. cbv zeta.
  assert (H : fst (constructor fresh_world) = Ok first_service)
    by (vm_compute; reflexivity).
  split; [exact H|].
  destruct (wallet_file_round_trip Mock.laws fresh_world first_service eq_refl H)
    as (Hfile & Hparse & Hlater).
  split; [exact Hfile|]. split; [exact Hparse|].
  exact (Hlater (snd (constructor fresh_world)) Hfile).
Defined.

(** * The further statements at work on the mock ledger *)

Definition CREATED_KEY : string :=
  "2AXDGYSE4f2sz7tvMMzyHvUfcoJmxudvdhBcmiUSo6ijwfYmfZYsKRxboQMPh3R4kUhXRVdtSXFXMheka4Rc4P2".

Definition CREATED_ADDRESS : string := "4vJ9JU1bJJE96FWSJKvHsmmFADCg4gpZQff4P3bkLKi".

Definition non_base58 : JsError := mkError "Error" "Non-base58 character".

(** A token address with a character outside the alphabet. *)
Lemma refused_address_stops_before_the_ledger_witness :
  let op := Op_mintTokensToUser "0" ADDRESS_3 5%Z in
  In "0" (address_arguments op) /\
  PublicKey_new "0" = inl non_base58 /\
  new_events mock_machine (snd (perform op mock_machine)) = [] /\
  exists t, fst (perform op mock_machine) = Some t.
Proof.
  cbv zeta.
  assert (Hin : In "0" (address_arguments (Op_mintTokensToUser "0" ADDRESS_3 5%Z)))
    by (left; reflexivity).
  assert (Hbad : PublicKey_new "0" = inl non_base58) by (vm_compute; reflexivity).
  split; [exact Hin|]. split; [exact Hbad|].
  exact (refused_address_stops_before_the_ledger
           (Op_mintTokensToUser "0" ADDRESS_3 5%Z) mock_machine "0" non_base58 Hin Hbad).
Defined.

Lemma undecodable_wallet_is_not_a_status_400_witness :
  let rb := burnTokensFromUser ADDRESS_2 "0" 5%Z mock_machine in
  let rt := transferTokens ADDRESS_2 ADDRESS_3 5%Z "0" mock_machine in
  base58_decode "0" = inl non_base58 /\
  fst rb = Throw (ThrowError non_base58) /\ new_events mock_machine (snd rb) = [] /\
  fst rt = Throw (ThrowError non_base58) /\ new_events mock_machine (snd rt) = [].
Proof.
  cbv zeta.
  assert (Hbad : base58_decode "0" = inl non_base58) by (vm_compute; reflexivity).
  split; [exact Hbad|].
  exact (undecodable_wallet_is_not_a_status_400
           ADDRESS_2 ADDRESS_3 "0" 5%Z mock_machine non_base58 Hbad).
Defined.

Lemma mintTokensToUser_mints_to_the_recipients_account_witness :
  let r := mintTokensToUser ADDRESS_2 ADDRESS_3 5%Z mock_machine in
  fst r = Ok "3mintTo" /\
  List.length (new_events mock_machine (snd r)) = 4%nat /\
  amounts_passed (new_events mock_machine (snd r)) = [5000000000%Z].
Proof.
  cbv zeta.
  assert (H : fst (mintTokensToUser ADDRESS_2 ADDRESS_3 5%Z mock_machine) = Ok "3mintTo")
    by (vm_compute; reflexivity).
  split; [exact H|].
  destruct (@mintTokensToUser_mints_to_the_recipients_account Mock.numbers Mock.sdk
              ADDRESS_2 ADDRESS_3 5%Z mock_machine _ H)
    as (mint & to & tokenAccount & mintInfo & _ & _ & Hevents).
  split; [rewrite Hevents; reflexivity|]. vm_compute. reflexivity.
Defined.

Lemma burnTokensFromUser_burns_from_the_users_account_witness :
  let r := burnTokensFromUser ADDRESS_2 CREATED_KEY 5%Z mock_machine in
  fst r = Ok "3burn" /\
  List.length (new_events mock_machine (snd r)) = 4%nat.
Proof.
  cbv zeta.
  assert (H : fst (burnTokensFromUser ADDRESS_2 CREATED_KEY 5%Z mock_machine) = Ok "3burn")
    by (vm_compute; reflexivity).
  split; [exact H|].
  destruct (@burnTokensFromUser_burns_from_the_users_account Mock.numbers Mock.sdk
              ADDRESS_2 CREATED_KEY 5%Z mock_machine _ H)
    as (sk & mint & userWallet & tokenAccount & mintInfo & _ & _ & _ & Hevents).
  rewrite Hevents. reflexivity.
Defined.

Lemma transferTokens_moves_between_the_two_accounts_witness :
  let r := transferTokens ADDRESS_2 ADDRESS_3 5%Z CREATED_KEY mock_machine in
  fst r = Ok "3transfer" /\
  List.length (new_events mock_machine (snd r)) = 5%nat.
Proof.
  cbv zeta.
  assert (H : fst (transferTokens ADDRESS_2 ADDRESS_3 5%Z CREATED_KEY mock_machine)
              = Ok "3transfer")
    by (vm_compute; reflexivity).
  split; [exact H|].
  destruct (@transferTokens_moves_between_the_two_accounts Mock.numbers Mock.sdk
              ADDRESS_2 ADDRESS_3 CREATED_KEY 5%Z mock_machine _ H)
    as (sk & userWallet & mint & toPublicKey & fromAccount & toAccount & mintInfo
        & _ & _ & _ & _ & Hevents).
  rewrite Hevents. reflexivity.
Defined.

(** A ledger that takes every transaction and never confirms one. *)
Definition expired : JsError :=
  mkError "TransactionExpiredBlockheightExceededError" "block height exceeded".

Definition unconfirming_answer {X} (call : @SdkCall Mock.numbers X) (l : Mock.MockLedger)
  : (JsError + X) * Mock.MockLedger :=
  match call in SdkCall X
        return (JsError + X) * Mock.MockLedger -> (JsError + X) * Mock.MockLedger with
  | confirmTransaction _ _ _ => fun _ => (inl expired, l)
  | _ => fun answered => answered
  end (Mock.answer call l).

Definition unconfirming_sdk : @Sdk Mock.numbers :=
  {| Ledger := Mock.MockLedger;
     rpc := @unconfirming_answer;
     getPublicKey := Mock.derive;
     randomPrivateKey := Mock.seed_of;
     TOKEN_2022_PROGRAM_ID := @TOKEN_2022_PROGRAM_ID Mock.numbers Mock.sdk;
     TYPE_SIZE := 2;
     LENGTH_SIZE := 2;
     getMintLen := fun _ => 234%Z;
     pack := @pack Mock.numbers Mock.sdk;
     AccountLayout_decode := Mock.decode |}.

Definition unconfirming_machine : @Machine Mock.numbers unconfirming_sdk :=
  @mkMachine Mock.numbers unconfirming_sdk Mock.service
    (@mkWorld Mock.numbers unconfirming_sdk ∅ true 0 (Mock.mkLedger true 0) [] []).

(** The mint goes through, its confirmation does not: the call throws and
    the transaction is on the ledger. *)
Example mint_submitted_and_thrown :
  let r := @mintTokensToUser Mock.numbers unconfirming_sdk ADDRESS_2 ADDRESS_3 5%Z
             unconfirming_machine in
  fst r = Throw (ThrowError expired) /\
  submitted_signatures (new_events unconfirming_machine (snd r)) = ["3mintTo"] /\
  Mock.submitted (ledger (env (snd r))) = 1%nat.
Proof. vm_compute. repeat split; reflexivity. Qed.

Lemma deployed_address_designates_the_mint_witness :
  SdkLaws Mock.sdk /\
  fst (mock_deploy mock_machine) = Ok CREATED_ADDRESS /\
  PublicKey_new CREATED_ADDRESS = inr (publicKey first_keypair).
Proof.
  split; [exact Mock.laws|].
  assert (H : fst (mock_deploy mock_machine) = Ok CREATED_ADDRESS)
    by (vm_compute; reflexivity).
  split; [exact H|].
  exact (deployed_address_designates_the_mint Mock.laws
           "SuperCoin" "SC" "https://sc.example/sc.png" mock_machine _ H).
Defined.

Lemma created_wallet_is_accepted_witness :
  let created := mkCreatedWallet CREATED_KEY CREATED_ADDRESS in
  let rt := transferTokens ADDRESS_2 ADDRESS_3 5%Z CREATED_KEY mock_machine in
  let rb := burnTokensFromUser ADDRESS_2 CREATED_KEY 5%Z mock_machine in
  SdkLaws Mock.sdk /\
  fst (createWallet mock_machine) = Ok created /\
  fst rt <> Throw (ThrowObject "Invalid secret key provided for transferTokens" 400) /\
  fst rb <> Throw (ThrowObject "Invalid secret key provided for burnTokensFromUser" 400).
Proof.
  cbv zeta. split; [exact Mock.laws|].
  assert (H : fst (createWallet mock_machine)
              = Ok (mkCreatedWallet CREATED_KEY CREATED_ADDRESS))
    by (vm_compute; reflexivity).
  split; [exact H|].
  destruct (@created_wallet_is_accepted Mock.numbers Mock.sdk Mock.laws mock_machine _
              ADDRESS_2 ADDRESS_3 5%Z mock_machine H) as (Ht & Hb & _).
  split; [exact Ht|exact Hb].
Defined.

Lemma vault_address_designates_the_wallet_witness :
  SdkLaws Mock.sdk /\
  fst (constructor fresh_world) = Ok first_service /\
  exists address_,
    getVaultWalletAddress (@mkMachine Mock.numbers Mock.sdk first_service fresh_world)
    = (Ok address_, @mkMachine Mock.numbers Mock.sdk first_service fresh_world) /\
    PublicKey_new address_ = inr (publicKey (wallet first_service)).
Proof.
  split; [exact Mock.laws|].
  assert (H : fst (constructor fresh_world) = Ok first_service)
    by (vm_compute; reflexivity).
  split; [exact H|].
  exact (vault_address_designates_the_wallet Mock.laws fresh_world first_service
           fresh_world H).
Defined.









